(** * cost-aware-backend: a shallow embedding of the three "days"

    The repository is a set of independent Go programs.  Each of them
    builds a container, times the construction and prints a cost
    projection.  This development embeds the functions that compute
    something (the growth table of day 2, the measurement functions of
    days 1 and 2, the cost projections, the binary search of the day 3
    benchmark) and states their properties.

    Conventions
    - Go [int] and [time.Duration] are 64-bit signed integers: values of [Z]
      with the wrap-around written out ([GoInt.wrap]).
    - Go [uintptr] is a 64-bit unsigned integer ([GoUintptr.wrap]).
    - Go [float64] is Rocq's primitive binary64 [float].
    - A slice whose capacity is never observed is the [list] of its
      elements.
    - [time.Now] reads a clock that the program does not control: the
      measurement functions run in a small state monad over the readings
      of that clock, and a run-time panic is the result [Panic]. *)

From Stdlib Require Import ZArith List Lia Bool String Ascii Permutation.
From Stdlib Require Import DecimalString.
From Stdlib Require Import QArith.
From Stdlib Require Import PrimFloat FloatOps SpecFloat.
Import ListNotations.

Set Warnings "-inexact-float".

Open Scope Z_scope.

(* ================================================================== *)
(** * Machine integers *)

Module GoInt.

Definition min_int : Z := - 2 ^ 63.
Definition max_int : Z := 2 ^ 63 - 1.

(** Two's complement reduction to 64 bits. *)
Definition wrap (z : Z) : Z := (z + 2 ^ 63) mod 2 ^ 64 - 2 ^ 63.

Definition in_range (z : Z) : Prop := min_int <= z <= max_int.

Definition add (a b : Z) : Z := wrap (a + b).
Definition sub (a b : Z) : Z := wrap (a - b).
Definition mul (a b : Z) : Z := wrap (a * b).
(** Go's [/] and [%] truncate towards zero. *)
Definition quot (a b : Z) : Z := wrap (Z.quot a b).
Definition rem (a b : Z) : Z := Z.rem a b.

(** [int32(x)] and [int8(x)]. *)
Definition to_int32 (z : Z) : Z := (z + 2 ^ 31) mod 2 ^ 32 - 2 ^ 31.
Definition to_int8 (z : Z) : Z := (z + 2 ^ 7) mod 2 ^ 8 - 2 ^ 7.

End GoInt.

Module GoUintptr.

Definition wrap (z : Z) : Z := z mod 2 ^ 64.
Definition sub (a b : Z) : Z := wrap (a - b).
Definition mul (a b : Z) : Z := wrap (a * b).

End GoUintptr.

(* ================================================================== *)
(** * Floating point *)

Module GoFloat.

(** [float64(x)] for an integer [x]: the nearest binary64, ties to even. *)
Definition of_Z (z : Z) : float := SF2Prim (binary_normalize prec emax z 0 false).

(** The rational number a finite binary64 stands for. *)
Definition to_Q (f : float) : option Q :=
  match Prim2SF f with
  | S754_zero _ => Some (0 # 1)
  | S754_finite s m e =>
      let n := if s then Z.neg m else Z.pos m in
      Some (if 0 <=? e then (n * 2 ^ e) # 1 else n # (Z.to_pos (2 ^ (- e))))
  | _ => None
  end.

(** [f] is finite and stands for the rational [q], with no rounding error. *)
Definition exactly (f : float) (q : Q) : Prop :=
  exists r, to_Q f = Some r /\ (r == q)%Q.

End GoFloat.

(* ================================================================== *)
(** * Slices and loops *)

Module GoSlice.

(** [make([]T, len, cap)] panics on a negative length and on a capacity
    below the length.  Exhaustion of the address space is not modelled. *)
Definition make {A : Type} (zero : A) (len cap : Z) : option (list A) :=
  if (len <? 0) || (cap <? len) then None
  else Some (repeat zero (Z.to_nat len)).

(** [s[i]], which panics out of range. *)
Definition index {A : Type} (s : list A) (i : Z) : option A :=
  if (i <? 0) || (Z.of_nat (List.length s) <=? i) then None
  else nth_error s (Z.to_nat i).

Fixpoint update {A : Type} (s : list A) (n : nat) (v : A) : list A :=
  match s, n with
  | [], _ => []
  | _ :: t, O => v :: t
  | h :: t, S n' => h :: update t n' v
  end.

(** [s[i] = v], which panics out of range. *)
Definition set {A : Type} (s : list A) (i : Z) (v : A) : option (list A) :=
  if (i <? 0) || (Z.of_nat (List.length s) <=? i) then None
  else Some (update s (Z.to_nat i) v).

(** [append(s, v)]. *)
Definition append {A : Type} (s : list A) (v : A) : list A := (s ++ [v])%list.

(** [len(s)]. *)
Definition len {A : Type} (s : list A) : Z := Z.of_nat (List.length s).

(** [n] more iterations of [for ; ; i++ { body }], from [i]; [None] is a
    panic in the body. *)
Fixpoint iterate {S : Type} (n : nat) (i : Z) (body : Z -> S -> option S) (s : S)
  : option S :=
  match n with
  | O => Some s
  | S n' =>
      match body i s with
      | Some s' => iterate n' (i + 1) body s'
      | None => None
      end
  end.

(** [for i := 0; i < count; i++ { body }]. *)
Definition for_upto {S : Type} (count : Z) (body : Z -> S -> option S) (s : S)
  : option S :=
  iterate (Z.to_nat count) 0 body s.

End GoSlice.

(* ================================================================== *)
(** * The measurement monad *)

Module Measure.

(** The readings the wall clock is going to give, and how many of them
    the program has taken. *)
Record World : Type := mkWorld {
  clock : nat -> Z;
  reads : nat
}.

Inductive Result (A : Type) : Type :=
| Ok (a : A) (w : World)
| Panic.
Arguments Ok {A} a w.
Arguments Panic {A}.

Definition M (A : Type) : Type := World -> Result A.

Definition ret {A : Type} (a : A) : M A := fun w => Ok a w.

Definition bind {A B : Type} (c : M A) (k : A -> M B) : M B :=
  fun w => match c w with
           | Ok a w' => k a w'
           | Panic => Panic
           end.

Definition panic {A : Type} : M A := fun _ => Panic.

Definition lift {A : Type} (o : option A) : M A :=
  match o with
  | Some a => ret a
  | None => panic
  end.

(** [time.Now()]. *)
Definition time_now : M Z :=
  fun w => Ok (clock w (reads w)) (mkWorld (clock w) (S (reads w))).

(** [time.Since(start)]. *)
Definition time_since (start : Z) : M Z :=
  bind time_now (fun t => ret (GoInt.sub t start)).

(** A clock that advances by one nanosecond per reading, and one that
    stands still. *)
Definition ticking : World := mkWorld (fun n => Z.of_nat n) 0.
Definition frozen : World := mkWorld (fun _ => 0) 0.

(** The value a run returns, when it returns. *)
Definition value {A : Type} (r : Result A) : option A :=
  match r with
  | Ok a _ => Some a
  | Panic => None
  end.

(** What a run shows of its result once the clock is left out: [None] for
    a panic. *)
Definition observed {A B : Type} (obs : A -> B) (run : M A) (w : World) : option B :=
  option_map obs (value (run w)).

End Measure.

Notation "x <- c ;; k" := (Measure.bind c (fun x => k))
  (at level 61, c at next level, right associativity).

(* ================================================================== *)
(** * Day 1: record layout *)

Module Day1.

(** ** Layout *)

(** The field types the two records use. *)
Inductive GoType : Type := TInt32 | TInt8 | TBool | TString.

(** [unsafe.Sizeof] and [unsafe.Offsetof] are compiler built-ins.  The rule
    they follow on a 64-bit host is written out here: a string is a
    pointer and a length, every field starts at the next multiple of its
    alignment, and the size of a record is rounded up to its largest
    alignment. *)
Definition ptr_size : Z := 8.

Definition sizeof_type (t : GoType) : Z :=
  match t with
  | TInt32 => 4
  | TInt8 => 1
  | TBool => 1
  | TString => 2 * ptr_size
  end.

Definition alignof_type (t : GoType) : Z :=
  match t with
  | TInt32 => 4
  | TInt8 => 1
  | TBool => 1
  | TString => ptr_size
  end.

Definition align_up (off a : Z) : Z := (off + a - 1) / a * a.

Definition Field : Type := string * GoType.

(** The offsets of the fields, the end of the last one and the largest
    alignment met. *)
Fixpoint place (fields : list Field) (off maxalign : Z)
  : list (string * Z) * Z * Z :=
  match fields with
  | [] => ([], off, maxalign)
  | (name, t) :: rest =>
      let o := align_up off (alignof_type t) in
      let '(offs, e, m) :=
        place rest (o + sizeof_type t) (Z.max maxalign (alignof_type t)) in
      ((name, o) :: offs, e, m)
  end.

Definition offsets (fields : list Field) : list (string * Z) :=
  fst (fst (place fields 0 1)).

Definition sizeof (fields : list Field) : Z :=
  let '(_, e, m) := place fields 0 1 in align_up e m.

(** The bytes of a record that hold no field. *)
Definition padding (fields : list Field) : Z :=
  sizeof fields - fold_right (fun f acc => sizeof_type (snd f) + acc) 0 fields.

Module BadUser.
Record t : Type := mk {
  ID : Z;
  Active : bool;
  Name : string;
  Age : Z
}.
Definition fields : list Field :=
  [("ID", TInt32); ("Active", TBool); ("Name", TString); ("Age", TInt8)]%string.
Definition zero : t := mk 0 false "" 0.
End BadUser.

Module GoodUser.
Record t : Type := mk {
  ID : Z;
  Age : Z;
  Active : bool;
  Name : string
}.
Definition fields : list Field :=
  [("ID", TInt32); ("Age", TInt8); ("Active", TBool); ("Name", TString)]%string.
Definition zero : t := mk 0 0 false "".
End GoodUser.

(** ** Measurement *)

(** [fmt.Sprintf("%d", i)]. *)
Definition itoa (i : Z) : string := NilEmpty.string_of_int (Z.to_int i).

(** [fmt.Sprintf("User_%d_Test_Name_That_Is_Long", i)]. *)
Definition user_name (i : Z) : string :=
  ("User_" ++ itoa i ++ "_Test_Name_That_Is_Long")%string.

(** What a run leaves behind: the elapsed time and the byte total that the
    function returns, and the slice it built. *)
Record Built (A : Type) : Type := mkBuilt {
  elapsed : Z;
  totalMemory : Z;
  users : list A
}.
Arguments mkBuilt {A} _ _ _.
Arguments elapsed {A} _.
Arguments totalMemory {A} _.
Arguments users {A} _.

Definition returned {A : Type} (b : Built A) : Z * Z := (elapsed b, totalMemory b).

Definition bad_user (i : Z) : BadUser.t :=
  BadUser.mk (GoInt.to_int32 i) (GoInt.rem i 2 =? 0) (user_name i)
    (GoInt.to_int8 (GoInt.rem i 100)).

Definition good_user (i : Z) : GoodUser.t :=
  GoodUser.mk (GoInt.to_int32 i) (GoInt.to_int8 (GoInt.rem i 100))
    (GoInt.rem i 2 =? 0) (user_name i).

Definition benchmarkBadUser_run (count : Z) : Measure.M (Built BadUser.t) :=
  start <- Measure.time_now ;;
  users <- Measure.lift (GoSlice.make BadUser.zero 0 count) ;;
  users <- Measure.lift
    (GoSlice.for_upto count (fun i us => Some (GoSlice.append us (bad_user i))) users) ;;
  elapsed <- Measure.time_since start ;;
  let totalMemory :=
    GoUintptr.mul (sizeof BadUser.fields) (GoUintptr.wrap (GoSlice.len users)) in
  Measure.ret (mkBuilt elapsed totalMemory users).

Definition benchmarkBadUser (count : Z) : Measure.M (Z * Z) :=
  b <- benchmarkBadUser_run count ;; Measure.ret (returned b).

Definition benchmarkGoodUser_run (count : Z) : Measure.M (Built GoodUser.t) :=
  start <- Measure.time_now ;;
  users <- Measure.lift (GoSlice.make GoodUser.zero 0 count) ;;
  users <- Measure.lift
    (GoSlice.for_upto count (fun i us => Some (GoSlice.append us (good_user i))) users) ;;
  elapsed <- Measure.time_since start ;;
  let totalMemory :=
    GoUintptr.mul (sizeof GoodUser.fields) (GoUintptr.wrap (GoSlice.len users)) in
  Measure.ret (mkBuilt elapsed totalMemory users).

Definition benchmarkGoodUser (count : Z) : Measure.M (Z * Z) :=
  b <- benchmarkGoodUser_run count ;; Measure.ret (returned b).

(** ** Cost projection *)

(** The figures [calculateCostImpact] prints. *)
Record Savings : Type := mkSavings {
  memorySavedMB : float;
  costPerGBMonth : float;
  monthlySavings : float;
  annualSavings : float;
  scaledSavings : list float
}.

Definition userCounts : list Z := [1000000; 10000000; 100000000; 1000000000].

Definition calculateCostImpact (beforeMem afterMem : Z) : Savings :=
  let memorySavedMB :=
    (GoFloat.of_Z (GoUintptr.sub beforeMem afterMem) / (1024 * 1024))%float in
  let awsT3MediumCost := 30%float in
  let awsRAMPerInstance := 8%float in
  let costPerGBMonth := (awsT3MediumCost / awsRAMPerInstance)%float in
  let monthlySavings := (memorySavedMB / 1024 * costPerGBMonth)%float in
  mkSavings memorySavedMB costPerGBMonth monthlySavings
    (monthlySavings * 12)%float
    (map (fun users => (monthlySavings * GoFloat.of_Z users / 1000000)%float)
         userCounts).

End Day1.

(* ================================================================== *)
(** * Day 2: slice growth *)

Module Day2.

(** The body of the loop of [calculateGrowth], as a function of [cap]. *)
Definition grow (cap : Z) : Z :=
  if cap =? 0 then 1
  else if cap <? 1024 then GoInt.mul cap 2
  else GoInt.add cap (GoInt.quot cap 4).

Record Growth : Type := mkGrowth {
  finalCap : Z;
  reallocs : Z;
  waste : Z
}.

(** [for cap < target { ... }]: one unit of fuel per evaluation of the
    loop condition; [None] when the fuel runs out. *)
Fixpoint growth_loop (fuel : nat) (target cap reallocs : Z) : option (Z * Z) :=
  match fuel with
  | O => None
  | S fuel' =>
      if cap <? target then
        let oldCap := cap in
        let cap' := grow cap in
        let reallocs' := if 0 <? oldCap then GoInt.add reallocs 1 else reallocs in
        growth_loop fuel' target cap' reallocs'
      else Some (cap, reallocs)
  end.

Definition calculateGrowth (fuel : nat) (target : Z) : option Growth :=
  match growth_loop fuel target 0 0 with
  | Some (cap, reallocs) => Some (mkGrowth cap reallocs (GoInt.sub cap target))
  | None => None
  end.

(** [calculateGrowth target] returns [r]. *)
Definition calculateGrowth_returns (target : Z) (r : Growth) : Prop :=
  exists fuel, calculateGrowth fuel target = Some r.

(** The capacity held after [n] executions of the loop body. *)
Fixpoint cap_after (n : nat) (cap : Z) : Z :=
  match n with
  | O => cap
  | S n' => cap_after n' (grow cap)
  end.

(** The last capacity that the sequence 0, 1, 2, 4, ... reaches before
    [cap + cap/4] leaves the 64-bit range (after 175 growth steps). *)
Definition last_safe_cap : Z := 8004081716634758290.

(** The capacities from which one growth step or a chain of them ends
    in [GoInt.max_int]. *)
Definition reaches_max_int (cap : Z) : bool :=
  existsb (Z.eqb cap)
    [ 9223372036854775807; 7378697629483820646; 5902958103587056517;
      4722366482869645214; -5534023222112865485; -6862188795419953201 ].

(** ** The three construction strategies *)

(** What a run leaves behind: the elapsed time and the allocation count that
    the function returns, and the slice it built. *)
Record Built : Type := mkBuilt {
  elapsed : Z;
  allocations : Z;
  data : list Z
}.

Definition returned (b : Built) : Z * Z := (elapsed b, allocations b).

Definition naive_body (i : Z) (s : list Z * Z) : option (list Z * Z) :=
  let '(data, allocations) := s in
  Some (GoSlice.append data i, GoInt.add allocations 1).

Definition benchmarkNaiveAppend_run (count : Z) : Measure.M Built :=
  start <- Measure.time_now ;;
  s <- Measure.lift (GoSlice.for_upto count naive_body ([], 0)) ;;
  t <- Measure.time_since start ;;
  Measure.ret (mkBuilt t (snd s) (fst s)).

Definition benchmarkNaiveAppend (count : Z) : Measure.M (Z * Z) :=
  b <- benchmarkNaiveAppend_run count ;; Measure.ret (returned b).

Definition benchmarkWithMake_run (count : Z) : Measure.M Built :=
  start <- Measure.time_now ;;
  let allocations := 1 in
  data <- Measure.lift (GoSlice.make 0 0 count) ;;
  data <- Measure.lift
    (GoSlice.for_upto count (fun i d => Some (GoSlice.append d i)) data) ;;
  t <- Measure.time_since start ;;
  Measure.ret (mkBuilt t allocations data).

Definition benchmarkWithMake (count : Z) : Measure.M (Z * Z) :=
  b <- benchmarkWithMake_run count ;; Measure.ret (returned b).

Definition benchmarkFixedArray_run (count : Z) : Measure.M Built :=
  start <- Measure.time_now ;;
  let allocations := 1 in
  data <- Measure.lift (GoSlice.make 0 count count) ;;
  data <- Measure.lift
    (GoSlice.for_upto count (fun i d => GoSlice.set d i i) data) ;;
  t <- Measure.time_since start ;;
  Measure.ret (mkBuilt t allocations data).

Definition benchmarkFixedArray (count : Z) : Measure.M (Z * Z) :=
  b <- benchmarkFixedArray_run count ;; Measure.ret (returned b).

(** ** Cost projection *)

(** The figures [calculateCostImpact] prints. *)
Record Savings : Type := mkSavings {
  timeSavedPercent : float;
  allocSavedPercent : float;
  msSavedPerRequest : float;
  cpuHoursSavedPerDay : float;
  dailySavings : float;
  monthlySavings : float;
  annualSavings : float
}.

Definition calculateCostImpact (t1 t2 alloc1 alloc2 : Z) : Savings :=
  let timeSavedNs := GoInt.sub t1 t2 in
  let timeSavedPercent := (GoFloat.of_Z timeSavedNs / GoFloat.of_Z t1 * 100)%float in
  let allocSaved := GoInt.sub alloc1 alloc2 in
  let allocSavedPercent := (GoFloat.of_Z allocSaved / GoFloat.of_Z alloc1 * 100)%float in
  let requestsPerSecond := 100%float in
  let requestsPerDay := (requestsPerSecond * 3600 * 24)%float in
  let awsCostPerVCPUHour := 0.0416%float in
  let msSavedPerRequest := (GoFloat.of_Z timeSavedNs / 1000000)%float in
  let cpuSecondsSavedPerRequest := (GoFloat.of_Z timeSavedNs / 1000000000)%float in
  let cpuHoursSavedPerDay := (cpuSecondsSavedPerRequest * requestsPerDay / 3600)%float in
  let dailySavings := (cpuHoursSavedPerDay * awsCostPerVCPUHour)%float in
  let monthlySavings := (dailySavings * 30)%float in
  let annualSavings := (monthlySavings * 12)%float in
  mkSavings timeSavedPercent allocSavedPercent msSavedPerRequest
    cpuHoursSavedPerDay dailySavings monthlySavings annualSavings.

End Day2.

(* ================================================================== *)
(** * Day 3: maps against slices *)

Module Day3.

(** ** The binary search of [Benchmark_SliceLookupBinarySearch] *)

Record entry : Type := mkEntry {
  Key : Z;
  Value : string
}.

(** [slice := make([]entry, n)] followed by
    [for i := 0; i < n; i++ { slice[i] = entry{Key: i, Value: "value"} }]. *)
Definition sorted_slice (n : Z) : option (list entry) :=
  match GoSlice.make (mkEntry 0 "") n n with
  | Some slice =>
      GoSlice.for_upto n (fun i sl => GoSlice.set sl i (mkEntry i "value")) slice
  | None => None
  end.

Inductive Outcome (A : Type) : Type :=
| Returned (a : A)
| Panicked
| OutOfFuel.
Arguments Returned {A} a.
Arguments Panicked {A}.
Arguments OutOfFuel {A}.

(** [for low <= high { ... }]: one unit of fuel per evaluation of the loop
    condition.  The result is the value of [found] when the loop is left. *)
Fixpoint search_loop (fuel : nat) (slice : list entry) (key low high : Z)
  (found : string) : Outcome string :=
  match fuel with
  | O => OutOfFuel
  | S fuel' =>
      if low <=? high then
        let mid := GoInt.quot (GoInt.add low high) 2 in
        match GoSlice.index slice mid with
        | None => Panicked
        | Some e =>
            if Key e =? key then Returned (Value e)
            else if Key e <? key then
              search_loop fuel' slice key (GoInt.add mid 1) high found
            else
              search_loop fuel' slice key low (GoInt.sub mid 1) found
        end
      else Returned found
  end.

(** [low, high := 0, len(slice)-1] and the loop. *)
Definition binary_search (fuel : nat) (slice : list entry) (key : Z)
  (found : string) : Outcome string :=
  search_loop fuel slice key 0 (GoInt.sub (GoSlice.len slice) 1) found.

(** The body of the benchmark loop at iteration [i]. *)
Definition lookup (fuel : nat) (slice : list entry) (i : Z) (found : string)
  : Outcome string :=
  let key := GoInt.rem i 1000 in
  binary_search fuel slice key found.

(** The same filling loop with the Value of each entry left open,
    [slice[i] = entry{Key: i, Value: value(i)}]: the benchmark stores
    the one string "value" everywhere, which does not tell two entries
    apart. *)
Definition keyed_slice (value : Z -> string) (n : Z) : option (list entry) :=
  match GoSlice.make (mkEntry 0 "") n n with
  | Some slice =>
      GoSlice.for_upto n (fun i sl => GoSlice.set sl i (mkEntry i (value i))) slice
  | None => None
  end.

(** The entries with keys 0, 1, ..., n-1 and Values [value 0], ...,
    [value (n-1)], in that order. *)
Definition entries_with (value : Z -> string) (n : nat) : list entry :=
  map (fun i => mkEntry (Z.of_nat i) (value (Z.of_nat i))) (seq 0 n).

(** The entries with keys 0, 1, ..., n-1, in that order. *)
Definition entries_upto (n : nat) : list entry :=
  map (fun i => mkEntry (Z.of_nat i) "value") (seq 0 n).

(** Every position of the slice holds the entry whose key is the position. *)
Definition keyed_by_position (slice : list entry) : Prop :=
  forall j, 0 <= j < GoSlice.len slice ->
    exists e, GoSlice.index slice j = Some e /\ Key e = j.

(** The entry of [slice] whose key is [key], the first one if there are
    several. *)
Definition entry_of_key (slice : list entry) (key : Z) : option entry :=
  find (fun e => Key e =? key) slice.

(** ** Cost projection *)

(** The figures [calculateMapCostImpact] prints. *)
Record MapCost : Type := mkMapCost {
  mapMemoryGB : float;
  mapCost : float;
  sliceMemoryGB : float;
  sliceCost : float;
  savingsGB : float;
  savingsCost : float;
  annualSavings : float
}.

Definition mapEntryOverhead : float := 50%float.
Definition sliceEntryOverhead : float := 16%float.
Definition entries : float := 1000000%float.
Definition awsCostPerGBMonth : float := 3.75%float.

Definition calculateMapCostImpact : MapCost :=
  let mapMemoryGB := ((entries * mapEntryOverhead) / (1024 * 1024 * 1024))%float in
  let mapCost := (mapMemoryGB * awsCostPerGBMonth)%float in
  let sliceMemoryGB := ((entries * sliceEntryOverhead) / (1024 * 1024 * 1024))%float in
  let sliceCost := (sliceMemoryGB * awsCostPerGBMonth)%float in
  let savingsGB := (mapMemoryGB - sliceMemoryGB)%float in
  let savingsCost := (mapCost - sliceCost)%float in
  mkMapCost mapMemoryGB mapCost sliceMemoryGB sliceCost savingsGB savingsCost
    (savingsCost * 12)%float.

End Day3.

(* ================================================================== *)
(** * The cost projections side by side *)

Module Projection.

(** The dollar figures of a cost projection at the three horizons.  A
    projection that computes no daily figure has [daily = None]. *)
Record t : Type := mk {
  daily : option float;
  monthly : float;
  annual : float
}.

Definition of_day1 (s : Day1.Savings) : t :=
  mk None (Day1.monthlySavings s) (Day1.annualSavings s).

Definition of_day2 (s : Day2.Savings) : t :=
  mk (Some (Day2.dailySavings s)) (Day2.monthlySavings s) (Day2.annualSavings s).

Definition of_day3 (c : Day3.MapCost) : t :=
  mk None (Day3.savingsCost c) (Day3.annualSavings c).

(** Monthly is thirty times daily and annual is twelve times monthly, the
    products being those of binary64. *)
Definition thirty_twelve (p : t) : Prop :=
  (exists d, daily p = Some d /\ monthly p = (d * 30)%float)
  /\ annual p = (monthly p * 12)%float.

End Projection.

(* ================================================================== *)
(** * Day 2: the tests, on slices whose capacity is observed *)

Module Day2Tests.

Record Slice : Type := mkSlice {
  elems : list Z;
  capacity : Z
}.

(** [var s []int]. *)
Definition nil : Slice := mkSlice [] 0.

Definition len (s : Slice) : Z := Z.of_nat (List.length (elems s)).
Definition cap (s : Slice) : Z := capacity s.

(** [make([]int, 0, size)]. *)
Definition make (size : Z) : option Slice :=
  if size <? 0 then None else Some (mkSlice [] size).

Section Runtime.

(** The capacity the runtime gives to a slice of capacity [old] that has to
    hold [needed] elements.  The choice belongs to the runtime, not to
    the repository. *)
Variable growslice : Z -> Z -> Z.

(** [append(s, v)]: in place while the capacity suffices. *)
Definition append (s : Slice) (v : Z) : Slice :=
  let needed := len s + 1 in
  if needed <=? cap s then mkSlice (elems s ++ [v])%list (cap s)
  else mkSlice (elems s ++ [v])%list (growslice (cap s) needed).

(** [for i := 0; i < n; i++ { s = append(s, i) }]. *)
Definition append_upto (n : Z) (s : Slice) : option Slice :=
  GoSlice.for_upto n (fun i s => Some (append s i)) s.

(** ** [Test_PreallocationSavings] *)

Record PreallocationSavings : Type := mkPreallocationSavings {
  allocCountNaive : Z;
  allocCountPrealloc : Z;
  savings_failed : bool
}.

Definition counting_body (i : Z) (st : Slice * Z) : option (Slice * Z) :=
  let '(s1, allocCountNaive) := st in
  let oldCap := cap s1 in
  let s1 := append s1 i in
  Some (s1, if oldCap <? cap s1 then GoInt.add allocCountNaive 1 else allocCountNaive).

(** The body of the test for a given [size]; [None] is a panic. *)
Definition preallocationSavings (size : Z) : option PreallocationSavings :=
  match GoSlice.for_upto size counting_body (nil, 0) with
  | Some (_, allocCountNaive) =>
      let allocCountPrealloc := 1 in
      match make size with
      | Some s2 =>
          match append_upto size s2 with
          | Some _ =>
              Some (mkPreallocationSavings allocCountNaive allocCountPrealloc
                      (allocCountNaive <=? allocCountPrealloc))
          | None => None
          end
      | None => None
      end
  | None => None
  end.

Definition Test_PreallocationSavings : option PreallocationSavings :=
  preallocationSavings 1000.

(** ** [Test_MemoryEfficiency] *)

Record MemoryEfficiency : Type := mkMemoryEfficiency {
  waste1 : Z;
  waste2 : Z;
  efficiency_failed : bool
}.

Definition memoryEfficiency (size : Z) : option MemoryEfficiency :=
  match append_upto size nil with
  | Some s1 =>
      match make size with
      | Some s2 =>
          match append_upto size s2 with
          | Some s2 =>
              let waste1 := GoInt.sub (cap s1) (len s1) in
              let waste2 := GoInt.sub (cap s2) (len s2) in
              Some (mkMemoryEfficiency waste1 waste2 (waste1 <? waste2))
          | None => None
          end
      | None => None
      end
  | None => None
  end.

Definition Test_MemoryEfficiency : option MemoryEfficiency :=
  memoryEfficiency 1000.

(** ** [Test_SliceGrowthPattern] *)

Definition expectedGrowth : list (Z * Z) :=
  [(1, 1); (2, 2); (3, 4); (5, 8); (9, 16); (17, 32); (33, 64); (1025, 1280)].

(** The capacity after [appends] appends to a nil slice. *)
Definition cap_after_appends (appends : Z) : option Z :=
  option_map cap (append_upto appends nil).

(** The rows of the table for which the test reports an error. *)
Definition Test_SliceGrowthPattern : list (Z * Z) :=
  filter (fun expected =>
            match cap_after_appends (fst expected) with
            | Some c => negb (c =? snd expected)
            | None => true
            end)
         expectedGrowth.

(** ** [demoSliceGrowthProblem] *)

Definition growthPattern : list Z := [1; 2; 3; 4; 5; 9; 17; 33].

(** A printed row: the [n] of the pattern, [len(s)], [cap(s)] and the
    waste. *)
Record Row : Type := mkRow {
  row_appends : Z;
  row_len : Z;
  row_cap : Z;
  row_waste : Z
}.

(** The loop over the pattern; [s] is carried from one row to the next. *)
Fixpoint demo_rows (pattern : list Z) (s : Slice) : list Row :=
  match pattern with
  | [] => []
  | n :: rest =>
      match append_upto n s with
      | Some s' =>
          mkRow n (len s') (cap s') (GoInt.sub (cap s') (len s')) :: demo_rows rest s'
      | None => []
      end
  end.

Definition demoSliceGrowthProblem : list Row := demo_rows growthPattern nil.

End Runtime.

(** A runtime that follows the growth law of [calculateGrowth]: a full
    slice takes one step of the law. *)
Definition growslice_by_law (old needed : Z) : Z := Day2.grow old.

(** The state of the counting loop after [j] appends, on a runtime that
    follows the law: the capacity is the [k]-th of the sequence, the
    first that covers [j], and the counter is [k]. *)
Definition counted (j : Z) (st : Slice * Z) : Prop :=
  exists k : nat,
    len (fst st) = j /\ cap (fst st) = Day2.cap_after k 0 /\ snd st = Z.of_nat k
    /\ Z.of_nat k <= j <= Day2.cap_after k 0
    /\ (forall m, (m < k)%nat -> Day2.cap_after m 0 < j)
    /\ (forall m, (1 <= m <= k)%nat -> 0 < Day2.cap_after m 0).

(** The running totals of a list. *)
Fixpoint running_totals (acc : Z) (l : list Z) : list Z :=
  match l with
  | [] => []
  | n :: rest => (acc + n) :: running_totals (acc + n) rest
  end.

End Day2Tests.

(* ================================================================== *)
(** * Day 3: the benchmarks on maps and slices *)

(** A [map[int]string]: a list of bindings with distinct keys. *)
Module GoMap.

Definition t : Type := list (Z * string).

(** [make(map[int]string)] and [make(map[int]string, size)]: the size is a
    hint for the allocation. *)
Definition make (hint : Z) : t := [].

Fixpoint get (m : t) (k : Z) : option string :=
  match m with
  | [] => None
  | (k', v) :: rest => if k' =? k then Some v else get rest k
  end.

(** [m[k]]: the zero value for a key that is not there. *)
Definition index (m : t) (k : Z) : string :=
  match get m k with
  | Some v => v
  | None => ""
  end.

(** [m[k] = v]. *)
Fixpoint put (m : t) (k : Z) (v : string) : t :=
  match m with
  | [] => [(k, v)]
  | (k', v') :: rest => if k' =? k then (k, v) :: rest else (k', v') :: put rest k v
  end.

(** [len(m)]. *)
Definition len (m : t) : Z := Z.of_nat (List.length m).

(** [for k, v := range m] visits every binding once, in an order the
    language leaves open. *)
Definition range_order (m : t) (order : list (Z * string)) : Prop :=
  Permutation order m.

End GoMap.

Module Day3Bench.
Import Day3.

(** ** Insertion *)

(** One round of [benchmarkMapInsert]: what it leaves in [globalMap] and
    [globalInt]. *)
Definition benchmarkMapInsert (size : Z) : option (GoMap.t * Z) :=
  match GoSlice.for_upto size (fun j m => Some (GoMap.put m j "value")) (GoMap.make 0) with
  | Some m => Some (m, GoMap.len m)
  | None => None
  end.

Definition benchmarkMapInsertPrealloc (size : Z) : option (GoMap.t * Z) :=
  match GoSlice.for_upto size (fun j m => Some (GoMap.put m j "value")) (GoMap.make size) with
  | Some m => Some (m, GoMap.len m)
  | None => None
  end.

(** One round of [benchmarkSliceStructInsert]: [globalSlice] and
    [globalInt]. *)
Definition benchmarkSliceStructInsert (size : Z) : option (list entry * Z) :=
  match GoSlice.make (mkEntry 0 "") 0 size with
  | Some slice =>
      match GoSlice.for_upto size
              (fun j sl => Some (GoSlice.append sl (mkEntry j "value"))) slice with
      | Some slice => Some (slice, GoSlice.len slice)
      | None => None
      end
  | None => None
  end.

(** The keys increase strictly along the slice. *)
Definition strictly_sorted (slice : list entry) : Prop :=
  forall i j a b,
    0 <= i < j ->
    GoSlice.index slice i = Some a -> GoSlice.index slice j = Some b ->
    Key a < Key b.

(** The bindings of a slice of entries, in the order of the slice. *)
Definition bindings (slice : list entry) : list (Z * string) :=
  map (fun e => (Key e, Value e)) slice.

(** ** Lookup *)

(** The map of [Benchmark_MapLookup] and [Benchmark_MapIteration]. *)
Definition lookup_map : option GoMap.t :=
  GoSlice.for_upto 1000 (fun i m => Some (GoMap.put m i "value")) (GoMap.make 1000).

(** The body of the loop of [Benchmark_MapLookup] at iteration [i]. *)
Definition mapLookup (m : GoMap.t) (i : Z) : string :=
  GoMap.index m (GoInt.rem i 1000).

(** The slice of [Benchmark_SliceLookupDirect]. *)
Definition direct_slice : option (list string) :=
  match GoSlice.make ""%string 1000 1000 with
  | Some slice => GoSlice.for_upto 1000 (fun i sl => GoSlice.set sl i "value"%string) slice
  | None => None
  end.

(** The body of the loop of [Benchmark_SliceLookupDirect] at iteration [i];
    [None] is an index out of range. *)
Definition sliceLookupDirect (slice : list string) (i : Z) : option string :=
  GoSlice.index slice (GoInt.rem i 1000).

(** ** Iteration *)

(** [for _, e := range slice { total += e.Key }]. *)
Definition sum_slice (slice : list entry) (total : Z) : Z :=
  fold_left (fun t e => GoInt.add t (Key e)) slice total.

(** [for k, v := range m { total += k }], in the order the runtime takes. *)
Definition sum_map (order : list (Z * string)) (total : Z) : Z :=
  fold_left (fun t kv => GoInt.add t (fst kv)) order total.

(** [Benchmark_SliceIteration] for [b.N = n]: the total left in
    [globalInt]. *)
Definition Benchmark_SliceIteration (slice : list entry) (n : Z) : option Z :=
  GoSlice.for_upto n (fun _ total => Some (sum_slice slice total)) 0.

(** [Benchmark_MapIteration] for [b.N = n]; [orders i] is the order in which
    round [i] visits the map. *)
Definition Benchmark_MapIteration (orders : Z -> list (Z * string)) (n : Z)
  : option Z :=
  GoSlice.for_upto n (fun i total => Some (sum_map (orders i) total)) 0.

End Day3Bench.

(* ================================================================== *)
(** * Theorems *)

Section GoIntFacts.

Lemma wrap_in_range (z : Z) : GoInt.in_range (GoInt.wrap z).
Proof.
  unfold GoInt.in_range, GoInt.wrap, GoInt.min_int, GoInt.max_int.
  pose proof (Z.mod_pos_bound (z + 2 ^ 63) (2 ^ 64) ltac:(lia)). lia.
Qed.

Lemma wrap_id (z : Z) : GoInt.in_range z -> GoInt.wrap z = z.
Proof.
  unfold GoInt.in_range, GoInt.wrap, GoInt.min_int, GoInt.max_int. intros H.
  rewrite Z.mod_small; lia.
Qed.

Lemma wrap_unfold (z : Z) :
  GoInt.wrap z
  = (z + 9223372036854775808) mod 18446744073709551616 - 9223372036854775808.
Proof. reflexivity. Qed.

End GoIntFacts.

Section SliceFacts.

Context {A : Type}.

Lemma update_length (s : list A) (n : nat) (v : A) :
  List.length (GoSlice.update s n v) = List.length s.
Proof.
  revert n. induction s as [|h t IH]; intros [|n]; simpl; auto.
Qed.

Lemma make_ok (zero : A) (len cap : Z) :
  0 <= len <= cap ->
  GoSlice.make zero len cap = Some (repeat zero (Z.to_nat len)).
Proof.
  intros H. unfold GoSlice.make.
  destruct (Z.ltb_spec len 0); [lia|].
  destruct (Z.ltb_spec cap len); [lia|]. reflexivity.
Qed.

Lemma make_negative (zero : A) (len cap : Z) :
  cap < 0 -> GoSlice.make zero len cap = None.
Proof.
  intros H. unfold GoSlice.make.
  destruct (Z.ltb_spec len 0); [reflexivity|].
  destruct (Z.ltb_spec cap len); [reflexivity|lia].
Qed.

(** A loop of appends cannot panic, and adds one element per iteration. *)
Lemma iterate_append (f : Z -> A) (n : nat) :
  forall i s,
    exists s', GoSlice.iterate n i (fun i d => Some (GoSlice.append d (f i))) s = Some s'
               /\ List.length s' = (List.length s + n)%nat.
Proof.
  induction n as [|n IH]; intros i s; simpl.
  - exists s. split; [reflexivity | lia].
  - destruct (IH (i + 1) (GoSlice.append s (f i))) as [s' [Hrun Hlen]].
    exists s'. split; [exact Hrun|].
    rewrite Hlen. unfold GoSlice.append. rewrite length_app. simpl. lia.
Qed.

End SliceFacts.

Module Day2Facts.
Import Day2.

(** The naive loop counts one allocation per append. *)
Lemma iterate_naive (n : nat) :
  forall i d a,
    0 <= a -> a + Z.of_nat n <= GoInt.max_int ->
    exists d', GoSlice.iterate n i naive_body (d, a) = Some (d', a + Z.of_nat n)
               /\ List.length d' = (List.length d + n)%nat.
Proof.
  induction n as [|n IH]; intros i d a Ha Hmax.
  - exists d. simpl. rewrite Z.add_0_r. split; [reflexivity | lia].
  - cbn [GoSlice.iterate naive_body].
    assert (Hadd : GoInt.add a 1 = a + 1).
    { apply wrap_id. unfold GoInt.in_range, GoInt.min_int, GoInt.max_int in *. lia. }
    rewrite Hadd.
    destruct (IH (i + 1) (GoSlice.append d i) (a + 1)) as [d' [Hrun Hlen]]; [lia|lia|].
    exists d'. rewrite Hrun. split; [f_equal; f_equal; lia|].
    rewrite Hlen. unfold GoSlice.append. rewrite length_app. simpl. lia.
Qed.

(** A loop of indexed stores stays within a slice that is long enough. *)
Lemma iterate_set (n : nat) :
  forall i (d : list Z),
    0 <= i -> i + Z.of_nat n <= Z.of_nat (List.length d) ->
    exists d', GoSlice.iterate n i (fun i d => GoSlice.set d i i) d = Some d'
               /\ List.length d' = List.length d.
Proof.
  induction n as [|n IH]; intros i d Hi Hlen.
  - exists d. split; reflexivity.
  - cbn [GoSlice.iterate]. unfold GoSlice.set at 1.
    destruct (Z.ltb_spec i 0); [lia|].
    destruct (Z.leb_spec (Z.of_nat (List.length d)) i); [lia|]. simpl.
    destruct (IH (i + 1) (GoSlice.update d (Z.to_nat i) i)) as [d' [Hrun Hl]].
    + lia.
    + rewrite update_length. lia.
    + exists d'. split; [exact Hrun|]. rewrite Hl. apply update_length.
Qed.

Lemma benchmarkNaiveAppend_run_spec (count : Z) (w : Measure.World) :
  count <= GoInt.max_int ->
  exists b, Measure.value (benchmarkNaiveAppend_run count w) = Some b
            /\ allocations b = Z.max 0 count
            /\ GoSlice.len (data b) = Z.max 0 count.
Proof.
  intros Hmax. unfold benchmarkNaiveAppend_run, Measure.bind, Measure.time_now,
    Measure.time_since, Measure.bind, Measure.lift, GoSlice.for_upto.
  destruct (iterate_naive (Z.to_nat count) 0 [] 0) as [d [Hrun Hlen]];
    [lia | unfold GoInt.max_int in *; lia |].
  rewrite Hrun. simpl. eexists. split; [reflexivity|]. simpl.
  unfold GoSlice.len. rewrite Hlen. simpl. lia.
Qed.

Lemma benchmarkNaiveAppend_spec (count : Z) (w : Measure.World) :
  count <= GoInt.max_int ->
  option_map snd (Measure.value (benchmarkNaiveAppend count w))
  = Some (Z.max 0 count).
Proof.
  intros Hmax.
  destruct (benchmarkNaiveAppend_run_spec count w Hmax) as [b [Hb [Ha _]]].
  unfold benchmarkNaiveAppend, Measure.bind.
  destruct (benchmarkNaiveAppend_run count w); [|discriminate].
  simpl in *. injection Hb as ->. now rewrite Ha.
Qed.

Lemma benchmarkWithMake_run_spec (count : Z) (w : Measure.World) :
  0 <= count ->
  exists b, Measure.value (benchmarkWithMake_run count w) = Some b
            /\ allocations b = 1 /\ GoSlice.len (data b) = count.
Proof.
  intros Hc. unfold benchmarkWithMake_run, Measure.bind, Measure.time_now,
    Measure.time_since, Measure.bind, Measure.lift, GoSlice.for_upto.
  rewrite make_ok by lia. simpl.
  destruct (iterate_append (fun i => i) (Z.to_nat count) 0 []) as [d [Hrun Hlen]].
  rewrite Hrun. simpl. eexists. split; [reflexivity|]. simpl.
  unfold GoSlice.len. rewrite Hlen. simpl. lia.
Qed.

Lemma benchmarkFixedArray_run_spec (count : Z) (w : Measure.World) :
  0 <= count ->
  exists b, Measure.value (benchmarkFixedArray_run count w) = Some b
            /\ allocations b = 1 /\ GoSlice.len (data b) = count.
Proof.
  intros Hc. unfold benchmarkFixedArray_run, Measure.bind, Measure.time_now,
    Measure.time_since, Measure.bind, Measure.lift, GoSlice.for_upto.
  rewrite make_ok by lia. simpl.
  destruct (iterate_set (Z.to_nat count) 0 (repeat 0 (Z.to_nat count)))
    as [d [Hrun Hlen]]; [lia | rewrite repeat_length; lia |].
  rewrite Hrun. simpl. eexists. split; [reflexivity|]. simpl.
  unfold GoSlice.len. rewrite Hlen, repeat_length. lia.
Qed.

(** What a caller sees of a run: the second component of the returned pair. *)
Lemma returned_allocations (run : Measure.M Built) (w : Measure.World) (b : Built) :
  Measure.value (run w) = Some b ->
  option_map snd (Measure.value ((b <- run ;; Measure.ret (returned b)) w))
  = Some (allocations b).
Proof.
  unfold Measure.bind. destruct (run w); simpl; [|discriminate].
  now intros [= ->].
Qed.


Lemma grow_zero : grow 0 = 1.
Proof. reflexivity. Qed.

Lemma grow_double (cap : Z) : 0 < cap < 1024 -> grow cap = 2 * cap.
Proof.
  intros H. unfold grow.
  destruct (Z.eqb_spec cap 0); [lia|].
  destruct (Z.ltb_spec cap 1024); [|lia].
  unfold GoInt.mul. rewrite wrap_id; [lia|].
  unfold GoInt.in_range, GoInt.min_int, GoInt.max_int. lia.
Qed.

Lemma grow_quarter (cap : Z) :
  1024 <= cap -> cap + cap / 4 <= GoInt.max_int -> grow cap = cap + cap / 4.
Proof.
  intros H Hmax. unfold grow.
  destruct (Z.eqb_spec cap 0); [lia|].
  destruct (Z.ltb_spec cap 1024); [lia|].
  unfold GoInt.add, GoInt.quot.
  rewrite Z.quot_div_nonneg by lia.
  assert (Hq : 0 <= cap / 4 <= cap) by (split; [apply Z.div_pos; lia | apply Z.div_le_upper_bound; lia]).
  unfold GoInt.max_int in Hmax.
  rewrite (wrap_id (cap / 4)) by (unfold GoInt.in_range, GoInt.min_int, GoInt.max_int; lia).
  apply wrap_id. unfold GoInt.in_range, GoInt.min_int, GoInt.max_int; lia.
Qed.

Lemma grow_in_range (cap : Z) : GoInt.in_range (grow cap).
Proof.
  unfold grow.
  destruct (cap =? 0); [unfold GoInt.in_range, GoInt.min_int, GoInt.max_int; lia|].
  destruct (cap <? 1024); apply wrap_in_range.
Qed.

(** Below the overflow every growth step strictly increases the capacity. *)
Lemma grow_increases (cap : Z) :
  0 <= cap -> cap + cap / 4 <= GoInt.max_int -> cap < grow cap.
Proof.
  intros H0 Hmax.
  destruct (Z.eq_dec cap 0) as [->|Hnz]; [rewrite grow_zero; lia|].
  destruct (Z_lt_le_dec cap 1024).
  - rewrite grow_double; lia.
  - rewrite grow_quarter by lia.
    assert (1 <= cap / 4) by (apply Z.div_le_lower_bound; lia). lia.
Qed.

Lemma grow_gains_256 (cap : Z) :
  1024 <= cap -> cap + cap / 4 <= GoInt.max_int -> 256 <= grow cap - cap.
Proof.
  intros H Hmax. rewrite grow_quarter by lia.
  assert (256 <= cap / 4) by (apply Z.div_le_lower_bound; lia). lia.
Qed.

(** More fuel does not change a result. *)
Lemma growth_loop_fuel_mono (fuel : nat) :
  forall target cap r x,
    growth_loop fuel target cap r = Some x ->
    forall fuel', (fuel <= fuel')%nat -> growth_loop fuel' target cap r = Some x.
Proof.
  induction fuel as [|fuel IH]; intros target cap r x Hrun fuel' Hle.
  - discriminate.
  - destruct fuel' as [|fuel']; [lia|].
    simpl in *. destruct (cap <? target).
    + apply (IH _ _ _ _ Hrun). lia.
    + exact Hrun.
Qed.

Lemma calculateGrowth_fuel_mono (fuel fuel' : nat) (target : Z) (r : Growth) :
  calculateGrowth fuel target = Some r -> (fuel <= fuel')%nat ->
  calculateGrowth fuel' target = Some r.
Proof.
  unfold calculateGrowth. intros Hrun Hle.
  destruct (growth_loop fuel target 0 0) as [[c k]|] eqn:E; [|discriminate].
  now rewrite (growth_loop_fuel_mono _ _ _ _ _ E _ Hle).
Qed.

(** [calculateGrowth] is a function of its argument. *)
Lemma calculateGrowth_returns_functional (target : Z) (r1 r2 : Growth) :
  calculateGrowth_returns target r1 -> calculateGrowth_returns target r2 -> r1 = r2.
Proof.
  intros [f1 H1] [f2 H2].
  apply (calculateGrowth_fuel_mono _ (Nat.max f1 f2)) in H1; [|lia].
  apply (calculateGrowth_fuel_mono _ (Nat.max f1 f2)) in H2; [|lia].
  congruence.
Qed.

(** The loop is left as soon as the capacity sequence reaches the target. *)
Lemma growth_loop_reaches (n : nat) :
  forall target cap r,
    target <= cap_after n cap ->
    exists x, growth_loop (S n) target cap r = Some x /\ target <= fst x.
Proof.
  induction n as [|n IH]; intros target cap r Hreach.
  - simpl in *. destruct (Z.ltb_spec cap target); [lia|].
    eexists; split; [reflexivity | simpl; lia].
  - change (growth_loop (S (S n)) target cap r)
      with (if cap <? target
            then growth_loop (S n) target (grow cap)
                   (if 0 <? cap then GoInt.add r 1 else r)
            else Some (cap, r)).
    destruct (Z.ltb_spec cap target).
    + apply IH. exact Hreach.
    + eexists; split; [reflexivity | simpl; lia].
Qed.

Lemma cap_after_175 : cap_after 175 0 = last_safe_cap.
Proof. vm_compute. reflexivity. Qed.

(** The next step leaves the 64-bit range and wraps to a negative
    capacity. *)
Example cap_after_176 : cap_after 176 0 = -8441641927916103754.
Proof. vm_compute. reflexivity. Qed.

(** No capacity outside the six of [reaches_max_int] grows into one of
    them. *)
Lemma reaches_max_int_closed (cap : Z) :
  GoInt.in_range cap ->
  reaches_max_int cap = false -> reaches_max_int (grow cap) = false.
Proof.
  unfold GoInt.in_range, GoInt.min_int, GoInt.max_int.
  intros Hr Hc.
  unfold reaches_max_int in *. simpl in *.
  repeat (apply orb_false_iff in Hc; destruct Hc as [? Hc]).
  repeat match goal with H : (_ =? _) = false |- _ => apply Z.eqb_neq in H end.
  assert (Hg : grow cap = 1
               \/ (cap < 1024 /\ grow cap = GoInt.wrap (cap * 2))
               \/ (1024 <= cap /\ grow cap = GoInt.wrap (cap + GoInt.wrap (cap / 4)))).
  { unfold grow. destruct (Z.eqb_spec cap 0); [now left|].
    destruct (Z.ltb_spec cap 1024); [right; left; now split|].
    right; right. split; [assumption|].
    unfold GoInt.add, GoInt.quot. now rewrite Z.quot_div_nonneg by lia. }
  rewrite !wrap_unfold in Hg.
  repeat (apply orb_false_iff; split); try reflexivity; apply Z.eqb_neq;
    Z.div_mod_to_equations; lia.
Qed.

Lemma growth_loop_diverges (fuel : nat) :
  forall cap r,
    GoInt.in_range cap -> reaches_max_int cap = false ->
    growth_loop fuel GoInt.max_int cap r = None.
Proof.
  induction fuel as [|fuel IH]; intros cap r Hr Hc; [reflexivity|].
  simpl.
  assert (Hne : cap <> GoInt.max_int).
  { intros ->. vm_compute in Hc. discriminate. }
  destruct (Z.ltb_spec cap GoInt.max_int) as [_|Hge].
  - apply IH; [apply grow_in_range | now apply reaches_max_int_closed].
  - unfold GoInt.in_range in Hr. lia.
Qed.

(** C2: for a target count N the naive strategy should report the number
    of growth steps needed to reach N, not N.  [benchmarkNaiveAppend]
    increments its counter once per append: for N = 1000 it reports 1000
    allocations, where the growth law of [calculateGrowth] reaches
    capacity 1024 with 10 reallocations after the first allocation. *)
Theorem benchmarkNaiveAppend_counts_appends :
  (forall w, option_map snd (Measure.value (benchmarkNaiveAppend 1000 w)) = Some 1000)
  /\ calculateGrowth_returns 1000 (mkGrowth 1024 10 24).
Proof.
  split.
  - intros w. rewrite benchmarkNaiveAppend_spec; [reflexivity|].
    unfold GoInt.max_int. simpl. lia.
  - exists 12%nat. reflexivity.
Qed.

(** C3: for every element count N, [benchmarkWithMake] and
    [benchmarkFixedArray] return the allocation count 1, and
    [benchmarkNaiveAppend] returns a count above 1 whenever N exceeds 1.
    A count is a non-negative [int]. *)
Theorem allocation_counts (count : Z) (w : Measure.World) :
  0 <= count <= GoInt.max_int ->
  option_map snd (Measure.value (benchmarkWithMake count w)) = Some 1
  /\ option_map snd (Measure.value (benchmarkFixedArray count w)) = Some 1
  /\ (1 < count ->
      exists a, option_map snd (Measure.value (benchmarkNaiveAppend count w)) = Some a
                /\ 1 < a).
Proof.
  intros [H0 Hmax].
  destruct (benchmarkWithMake_run_spec count w H0) as [b1 [Hb1 [Ha1 _]]].
  destruct (benchmarkFixedArray_run_spec count w H0) as [b2 [Hb2 [Ha2 _]]].
  split; [|split].
  - unfold benchmarkWithMake. rewrite (returned_allocations _ _ _ Hb1). now rewrite Ha1.
  - unfold benchmarkFixedArray. rewrite (returned_allocations _ _ _ Hb2). now rewrite Ha2.
  - intros H1. exists (Z.max 0 count). split; [|lia].
    now apply benchmarkNaiveAppend_spec.
Qed.

Lemma allocation_counts_witness :
  option_map snd (Measure.value (benchmarkWithMake 5 Measure.ticking)) = Some 1
  /\ option_map snd (Measure.value (benchmarkFixedArray 5 Measure.ticking)) = Some 1
  /\ (1 < 5 ->
      exists a, option_map snd (Measure.value (benchmarkNaiveAppend 5 Measure.ticking)) = Some a
                /\ 1 < a).
Proof.
  apply (allocation_counts 5 Measure.ticking).
  unfold GoInt.max_int. simpl. lia.
Defined.

(** C1: the growth law is a function of the target and follows
    doubling-then-25%: from capacity 0 the first allocation gives capacity
    1, a capacity below 1024 doubles, a capacity of 1024 or more becomes
    [cap + cap/4]; [calculateGrowth] ends with capacity 1 for a target of 1,
    4 for 3, 16 for 9 and 1280 for 1025. *)
Theorem growth_law :
  grow 0 = 1
  /\ (forall cap, 0 < cap < 1024 -> grow cap = 2 * cap)
  /\ (forall cap, 1024 <= cap -> cap + cap / 4 <= GoInt.max_int ->
        grow cap = cap + cap / 4)
  /\ calculateGrowth_returns 1 (mkGrowth 1 0 0)
  /\ calculateGrowth_returns 3 (mkGrowth 4 2 1)
  /\ calculateGrowth_returns 9 (mkGrowth 16 4 7)
  /\ calculateGrowth_returns 1025 (mkGrowth 1280 11 255)
  /\ (forall target r1 r2,
        calculateGrowth_returns target r1 -> calculateGrowth_returns target r2 ->
        r1 = r2).
Proof.
  split; [exact grow_zero|].
  split; [exact grow_double|].
  split; [exact grow_quarter|].
  split; [exists 2%nat; reflexivity|].
  split; [exists 4%nat; reflexivity|].
  split; [exists 6%nat; reflexivity|].
  split; [exists 13%nat; reflexivity|].
  exact calculateGrowth_returns_functional.
Qed.

Lemma growth_law_witness :
  grow 512 = 2 * 512 /\ grow 1024 = 1024 + 1024 / 4.
Proof.
  destruct growth_law as (_ & Hdouble & Hquarter & _).
  split; [apply Hdouble; lia|].
  apply Hquarter; unfold GoInt.max_int; simpl; lia.
Defined.

(** C9, as the code has it: [calculateGrowth] returns for every target up
    to [last_safe_cap], the last capacity reached before [cap + cap/4]
    overflows, within 176 evaluations of the loop condition and with a
    capacity that covers the target.  Below the overflow each iteration
    strictly increases the capacity (by at least 256 from 1024 on).  For
    a target of 0 or less the body never runs and the result is
    (0, 0, -target), the negation being that of a 64-bit integer. *)
Theorem calculateGrowth_terminates_below_overflow :
  (forall target, target <= last_safe_cap ->
     exists r, calculateGrowth 176 target = Some r /\ target <= finalCap r)
  /\ (forall cap, 0 <= cap -> cap + cap / 4 <= GoInt.max_int -> cap < grow cap)
  /\ (forall cap, 1024 <= cap -> cap + cap / 4 <= GoInt.max_int ->
        256 <= grow cap - cap)
  /\ (forall target fuel, target <= 0 ->
        calculateGrowth (S fuel) target
        = Some (mkGrowth 0 0 (GoInt.wrap (- target))))
  /\ (forall target, GoInt.min_int < target <= 0 -> GoInt.wrap (- target) = - target).
Proof.
  split.
  { intros target Hle.
    destruct (growth_loop_reaches 175 target 0 0) as [[c k] [Hrun Hcov]].
    - rewrite cap_after_175. exact Hle.
    - unfold calculateGrowth. rewrite Hrun. eexists; split; [reflexivity|exact Hcov]. }
  split; [exact grow_increases|].
  split; [exact grow_gains_256|].
  split.
  { intros target fuel Hle. unfold calculateGrowth. simpl.
    destruct (Z.ltb_spec 0 target); [lia|]. reflexivity. }
  intros target H. apply wrap_id.
  unfold GoInt.in_range, GoInt.min_int, GoInt.max_int in *. lia.
Qed.

Lemma calculateGrowth_terminates_below_overflow_witness :
  (exists r, calculateGrowth 176 100000 = Some r /\ 100000 <= finalCap r)
  /\ 2048 < grow 2048
  /\ calculateGrowth 1 (-5) = Some (mkGrowth 0 0 (GoInt.wrap (- -5)))
  /\ GoInt.wrap (- -5) = - -5.
Proof.
  destruct calculateGrowth_terminates_below_overflow
    as (Hterm & Hinc & _ & Hneg & Hwrap).
  split; [apply Hterm; unfold last_safe_cap; lia|].
  split; [apply Hinc; [lia | unfold GoInt.max_int; simpl; lia]|].
  split; [apply Hneg; lia|].
  apply Hwrap. unfold GoInt.min_int. simpl. lia.
Defined.

(** C9 fails as stated: for the target [GoInt.max_int] the loop never
    ends.  The capacity wraps around after 176 steps and never becomes
    [GoInt.max_int], the only value that is not below the target. *)
Lemma calculateGrowth_diverges_at_max_int :
  ~ (exists r, calculateGrowth_returns 9223372036854775807 r).
Proof.
  intros [r [fuel Hrun]]. unfold calculateGrowth in Hrun.
  change 9223372036854775807 with GoInt.max_int in Hrun.
  rewrite growth_loop_diverges in Hrun; [discriminate | | reflexivity].
  unfold GoInt.in_range, GoInt.min_int, GoInt.max_int. simpl. lia.
Qed.

End Day2Facts.

Module Day3Facts.
Import Day3.

Lemma update_middle {A : Type} (pre post : list A) (x v : A) :
  GoSlice.update (pre ++ x :: post) (List.length pre) v = (pre ++ v :: post)%list.
Proof.
  induction pre as [|h t IH]; simpl; [reflexivity | now rewrite IH].
Qed.

(** The filling loop writes [f i] at every position [i] it visits. *)
Lemma iterate_fill {A : Type} (f : Z -> A) (n : nat) :
  forall (pre post : list A),
    List.length post = n ->
    GoSlice.iterate n (Z.of_nat (List.length pre))
      (fun i sl => GoSlice.set sl i (f i)) (pre ++ post)
    = Some (pre ++ map (fun i => f (Z.of_nat i)) (seq (List.length pre) n))%list.
Proof.
  induction n as [|n IH]; intros pre post Hlen.
  - destruct post; [|discriminate]. reflexivity.
  - destruct post as [|x post]; [discriminate|].
    cbn [GoSlice.iterate]. unfold GoSlice.set at 1.
    destruct (Z.ltb_spec (Z.of_nat (List.length pre)) 0); [lia|].
    destruct (Z.leb_spec (Z.of_nat (List.length (pre ++ x :: post)))
                (Z.of_nat (List.length pre))) as [Hle|_].
    { rewrite length_app in Hle. simpl in Hle. lia. }
    cbn [orb]. rewrite Nat2Z.id, update_middle.
    specialize (IH (pre ++ [f (Z.of_nat (List.length pre))])%list post).
    rewrite length_app in IH. simpl in IH.
    replace (Z.of_nat (List.length pre + 1)) with (Z.of_nat (List.length pre) + 1) in IH by lia.
    rewrite <- app_assoc in IH. simpl in IH.
    rewrite IH by (simpl in Hlen; lia).
    rewrite <- app_assoc. simpl. now rewrite Nat.add_1_r.
Qed.

Lemma sorted_slice_entries (n : Z) :
  0 <= n -> sorted_slice n = Some (entries_upto (Z.to_nat n)).
Proof.
  intros Hn. unfold sorted_slice. rewrite make_ok by lia.
  unfold GoSlice.for_upto.
  apply (iterate_fill (fun i => mkEntry i "value") (Z.to_nat n) []).
  apply repeat_length.
Qed.

Lemma entries_upto_length (n : nat) : List.length (entries_upto n) = n.
Proof. unfold entries_upto. now rewrite length_map, length_seq. Qed.

Lemma entries_upto_index (n : nat) (j : Z) :
  0 <= j < Z.of_nat n ->
  GoSlice.index (entries_upto n) j = Some (mkEntry j "value").
Proof.
  intros Hj. unfold GoSlice.index. rewrite entries_upto_length.
  destruct (Z.ltb_spec j 0); [lia|].
  destruct (Z.leb_spec (Z.of_nat n) j); [lia|]. cbn [orb].
  unfold entries_upto. rewrite nth_error_map, nth_error_seq.
  destruct (Nat.ltb_spec (Z.to_nat j) n); [|lia].
  simpl. now rewrite Z2Nat.id by lia.
Qed.

Lemma entries_upto_keyed (n : nat) : keyed_by_position (entries_upto n).
Proof.
  intros j Hj. unfold GoSlice.len in Hj. rewrite entries_upto_length in Hj.
  exists (mkEntry j "value"). split; [now apply entries_upto_index | reflexivity].
Qed.

Lemma find_in_range (key : Z) (n : nat) :
  forall a, (Z.of_nat a <= key < Z.of_nat (a + n)) ->
    find (fun e => Key e =? key)
         (map (fun i => mkEntry (Z.of_nat i) "value") (seq a n))
    = Some (mkEntry key "value").
Proof.
  induction n as [|n IH]; intros a Hr; [lia|].
  simpl. destruct (Z.eqb_spec (Z.of_nat a) key) as [->|Hne]; [reflexivity|].
  apply IH. lia.
Qed.

Lemma entries_upto_entry_of_key (n : nat) (key : Z) :
  0 <= key < Z.of_nat n ->
  entry_of_key (entries_upto n) key = Some (mkEntry key "value").
Proof.
  intros H. unfold entry_of_key, entries_upto. apply find_in_range. simpl. lia.
Qed.

(** The midpoint of two positions of a slice, computed without overflow. *)
Lemma midpoint (low high : Z) :
  0 <= low -> low <= high -> high < 2 ^ 62 ->
  GoInt.quot (GoInt.add low high) 2 = (low + high) / 2.
Proof.
  intros H0 Hle Hmax. unfold GoInt.add, GoInt.quot.
  assert (H62 : 2 ^ 62 = 4611686018427387904) by reflexivity.
  rewrite (wrap_id (low + high))
    by (unfold GoInt.in_range, GoInt.min_int, GoInt.max_int; simpl; lia).
  rewrite Z.quot_div_nonneg by lia.
  apply wrap_id. unfold GoInt.in_range, GoInt.min_int, GoInt.max_int. simpl.
  split.
  - assert (0 <= (low + high) / 2) by (apply Z.div_pos; lia). lia.
  - assert ((low + high) / 2 <= low + high) by (apply Z.div_le_upper_bound; lia). lia.
Qed.

(** On a slice keyed by position the loop narrows [low, high] around the
    key until the midpoint is the key. *)
Lemma search_loop_finds (slice : list entry) (key : Z) :
  keyed_by_position slice ->
  GoSlice.len slice <= 2 ^ 62 ->
  forall fuel low high found,
    0 <= low -> low <= key -> key <= high -> high < GoSlice.len slice ->
    (Z.to_nat (high - low) < fuel)%nat ->
    exists e, GoSlice.index slice key = Some e
              /\ search_loop fuel slice key low high found = Returned (Value e).
Proof.
  intros Hkeyed Hlen.
  assert (H62 : 2 ^ 62 = 4611686018427387904) by reflexivity.
  induction fuel as [|fuel IH]; intros low high found H0 Hlk Hkh Hhl Hfuel; [lia|].
  cbn [search_loop].
  destruct (Z.leb_spec low high); [|lia].
  rewrite midpoint by lia.
  assert (Hmid : low <= (low + high) / 2 <= high).
  { split; [apply Z.div_le_lower_bound | apply Z.div_le_upper_bound]; lia. }
  set (mid := (low + high) / 2) in *.
  destruct (Hkeyed mid) as [e [He Hk]]; [lia|].
  rewrite He, Hk.
  destruct (Z.eqb_spec mid key) as [Heq|Hne].
  - exists e. split; [now rewrite <- Heq | reflexivity].
  - destruct (Z.ltb_spec mid key).
    + assert (Hs : GoInt.add mid 1 = mid + 1).
      { apply wrap_id. unfold GoInt.in_range, GoInt.min_int, GoInt.max_int. simpl. lia. }
      rewrite Hs. apply IH; lia.
    + assert (Hs : GoInt.sub mid 1 = mid - 1).
      { apply wrap_id. unfold GoInt.in_range, GoInt.min_int, GoInt.max_int. simpl. lia. }
      rewrite Hs. apply IH; lia.
Qed.

Lemma binary_search_entries (key : Z) (found : string) (fuel : nat) :
  0 <= key <= 999 -> (1000 <= fuel)%nat ->
  binary_search fuel (entries_upto 1000) key found
  = Returned (Value (mkEntry key "value")).
Proof.
  intros Hkey Hfuel. unfold binary_search.
  assert (Hl : GoSlice.len (entries_upto 1000) = 1000).
  { unfold GoSlice.len. now rewrite entries_upto_length. }
  rewrite Hl. change (GoInt.sub 1000 1) with 999.
  destruct (search_loop_finds (entries_upto 1000) key (entries_upto_keyed 1000))
    with (fuel := fuel) (low := 0) (high := 999) (found := found)
    as [e [He Hrun]]; try lia.
  rewrite entries_upto_index in He by lia. injection He as <-. exact Hrun.
Qed.

Lemma keyed_slice_entries (value : Z -> string) (n : Z) :
  0 <= n -> keyed_slice value n = Some (entries_with value (Z.to_nat n)).
Proof.
  intros Hn. unfold keyed_slice. rewrite make_ok by lia.
  unfold GoSlice.for_upto.
  apply (iterate_fill (fun i => mkEntry i (value i)) (Z.to_nat n) []).
  apply repeat_length.
Qed.

Lemma entries_with_length (value : Z -> string) (n : nat) :
  List.length (entries_with value n) = n.
Proof. unfold entries_with. now rewrite length_map, length_seq. Qed.

Lemma entries_with_index (value : Z -> string) (n : nat) (j : Z) :
  0 <= j < Z.of_nat n ->
  GoSlice.index (entries_with value n) j = Some (mkEntry j (value j)).
Proof.
  intros Hj. unfold GoSlice.index. rewrite entries_with_length.
  destruct (Z.ltb_spec j 0); [lia|].
  destruct (Z.leb_spec (Z.of_nat n) j); [lia|]. cbn [orb].
  unfold entries_with. rewrite nth_error_map, nth_error_seq.
  destruct (Nat.ltb_spec (Z.to_nat j) n); [|lia].
  simpl. now rewrite Z2Nat.id by lia.
Qed.

Lemma entries_with_keyed (value : Z -> string) (n : nat) :
  keyed_by_position (entries_with value n).
Proof.
  intros j Hj. unfold GoSlice.len in Hj. rewrite entries_with_length in Hj.
  exists (mkEntry j (value j)). split; [now apply entries_with_index | reflexivity].
Qed.

Lemma find_in_range_with (value : Z -> string) (key : Z) (n : nat) :
  forall a, (Z.of_nat a <= key < Z.of_nat (a + n)) ->
    find (fun e => Key e =? key)
         (map (fun i => mkEntry (Z.of_nat i) (value (Z.of_nat i))) (seq a n))
    = Some (mkEntry key (value key)).
Proof.
  induction n as [|n IH]; intros a Hr; [lia|].
  simpl. destruct (Z.eqb_spec (Z.of_nat a) key) as [->|Hne]; [reflexivity|].
  apply IH. lia.
Qed.

(** The search on the slice with open Values returns the Value stored
    under the searched key, and no other. *)
Lemma binary_search_entries_with (value : Z -> string) (key : Z) (found : string)
  (fuel : nat) :
  0 <= key <= 999 -> (1000 <= fuel)%nat ->
  binary_search fuel (entries_with value 1000) key found = Returned (value key).
Proof.
  intros Hkey Hfuel. unfold binary_search.
  assert (Hl : GoSlice.len (entries_with value 1000) = 1000).
  { unfold GoSlice.len. now rewrite entries_with_length. }
  rewrite Hl. change (GoInt.sub 1000 1) with 999.
  destruct (search_loop_finds (entries_with value 1000) key (entries_with_keyed value 1000))
    with (fuel := fuel) (low := 0) (high := 999) (found := found)
    as [e [He Hrun]]; try lia.
  rewrite entries_with_index in He by lia. injection He as <-. exact Hrun.
Qed.

(** C10: on the 1000-element slice with [slice[i].Key = i], for every
    searched key from 0 to 999 and whatever [found] held before, the
    binary-search loop ends and leaves in [found] the Value of the entry
    whose Key is the searched key.  The benchmark stores the same Value
    in every entry; the statement is therefore also made for the slice
    filled by the same loop with any Values [value i]: the search for
    [key] leaves [value key], the Value of the one entry with that Key,
    in [found]. *)
Theorem binary_search_finds (value : Z -> string) (key : Z) (found : string) :
  0 <= key <= 999 ->
  sorted_slice 1000 = keyed_slice (fun _ => "value"%string) 1000
  /\ (exists slice e,
        sorted_slice 1000 = Some slice
        /\ entry_of_key slice key = Some e
        /\ Key e = key
        /\ forall fuel, (1000 <= fuel)%nat ->
             binary_search fuel slice key found = Returned (Value e))
  /\ (exists slice e,
        keyed_slice value 1000 = Some slice
        /\ entry_of_key slice key = Some e
        /\ Key e = key
        /\ Value e = value key
        /\ (forall j, 0 <= j <= 999 ->
              exists a, GoSlice.index slice j = Some a /\ Key a = j /\ Value a = value j)
        /\ forall fuel, (1000 <= fuel)%nat ->
             binary_search fuel slice key found = Returned (value key)).
Proof.
  intros Hkey.
  split; [reflexivity|]. split.
  - exists (entries_upto 1000), (mkEntry key "value").
    split; [apply (sorted_slice_entries 1000); lia|].
    split; [apply entries_upto_entry_of_key; lia|].
    split; [reflexivity|].
    intros fuel Hfuel. now apply binary_search_entries.
  - exists (entries_with value 1000), (mkEntry key (value key)).
    split; [apply (keyed_slice_entries value 1000); lia|].
    split; [unfold entry_of_key, entries_with; apply find_in_range_with; simpl; lia|].
    split; [reflexivity|]. split; [reflexivity|].
    split.
    + intros j Hj. exists (mkEntry j (value j)).
      split; [apply entries_with_index; lia | split; reflexivity].
    + intros fuel Hfuel. now apply binary_search_entries_with.
Qed.

Lemma binary_search_finds_witness :
  exists slice e,
    keyed_slice Day1.itoa 1000 = Some slice
    /\ entry_of_key slice 637 = Some e
    /\ Key e = 637
    /\ Value e = "637"%string
    /\ forall fuel, (1000 <= fuel)%nat ->
         binary_search fuel slice 637 "" = Returned "637"%string.
Proof.
  destruct (binary_search_finds Day1.itoa 637 "" ltac:(lia))
    as (_ & _ & slice & e & Hs & He & Hk & Hv & _ & Hrun).
  exists slice, e. repeat split; assumption.
Defined.

(** The Values tell the entries apart: the search for 637 among the
    entries whose Value is the decimal form of their Key. *)
Example binary_search_637 :
  option_map (fun slice => binary_search 11 slice 637 "") (keyed_slice Day1.itoa 1000)
  = Some (Returned "637"%string).
Proof. vm_compute. reflexivity. Qed.

(** Every iteration of the benchmark loop searches a key from 0 to 999,
    and finds it. *)
Lemma lookup_key_range (i : Z) : 0 <= i -> 0 <= GoInt.rem i 1000 <= 999.
Proof.
  intros Hi. unfold GoInt.rem.
  pose proof (Z.rem_bound_pos i 1000 Hi ltac:(lia)). lia.
Qed.

Lemma lookup_finds (i : Z) (found : string) (fuel : nat) :
  0 <= i -> (1000 <= fuel)%nat ->
  lookup fuel (entries_upto 1000) i found = Returned "value"%string.
Proof.
  intros Hi Hfuel. unfold lookup.
  now rewrite binary_search_entries by (auto using lookup_key_range).
Qed.

(** Ten halvings are enough for a thousand entries. *)
Example lookup_637 :
  lookup 11 (entries_upto 1000) 20637 "" = Returned "value"%string.
Proof. vm_compute. reflexivity. Qed.

Lemma exactly_intro (f : float) (r q : Q) :
  GoFloat.to_Q f = Some r -> Qeq_bool r q = true -> GoFloat.exactly f q.
Proof.
  intros Hf Hq. exists r. split; [exact Hf | now apply Qeq_bool_iff].
Qed.

(** C5: the monthly cost that [calculateMapCostImpact] projects for
    1,000,000 entries is [entries * overheadBytes / bytesPerGB *
    pricePerGBMonth], with entries = 1,000,000, overheadBytes = 50,
    bytesPerGB = 1024*1024*1024 and pricePerGBMonth = 3.75.  The constants
    are binary64 numbers, and the binary64 result is the rational number
    that the formula denotes: no operation rounds. *)
Theorem mapCost_exact :
  mapCost calculateMapCostImpact
  = (entries * mapEntryOverhead / (1024 * 1024 * 1024) * awsCostPerGBMonth)%float
  /\ GoFloat.exactly entries (1000000 # 1)
  /\ GoFloat.exactly mapEntryOverhead (50 # 1)
  /\ GoFloat.exactly (1024 * 1024 * 1024)%float (1024 * 1024 * 1024 # 1)
  /\ GoFloat.exactly awsCostPerGBMonth (375 # 100)
  /\ GoFloat.exactly (mapCost calculateMapCostImpact)
       ((1000000 # 1) * (50 # 1) / (1024 * 1024 * 1024 # 1) * (375 # 100))%Q.
Proof.
  split; [reflexivity|].
  repeat split; eapply exactly_intro; try (vm_compute; reflexivity).
Qed.

End Day3Facts.

Module Day1Facts.
Import Day1.

(** Both measurement functions return for a count that is not negative:
    the byte total is the size of the record times the count, and the
    slice holds one record per count. *)
Lemma benchmarkBadUser_run_spec (count : Z) (w : Measure.World) :
  0 <= count <= GoInt.max_int ->
  exists b, Measure.value (benchmarkBadUser_run count w) = Some b
            /\ totalMemory b = (32 * count) mod 2 ^ 64
            /\ GoSlice.len (users b) = count.
Proof.
  intros [Hc Hmax]. unfold benchmarkBadUser_run, Measure.bind, Measure.time_now,
    Measure.time_since, Measure.bind, Measure.lift, GoSlice.for_upto.
  rewrite make_ok by lia. simpl.
  destruct (iterate_append bad_user (Z.to_nat count) 0 []) as [d [Hrun Hlen]].
  rewrite Hrun. simpl. eexists. split; [reflexivity|]. simpl.
  assert (Hl : GoSlice.len d = count) by (unfold GoSlice.len; rewrite Hlen; simpl; lia).
  split; [|exact Hl].
  rewrite Hl. unfold GoUintptr.mul, GoUintptr.wrap.
  change (sizeof BadUser.fields) with 32.
  rewrite (Z.mod_small count); [reflexivity|].
  unfold GoInt.max_int in Hmax. lia.
Qed.

Lemma benchmarkGoodUser_run_spec (count : Z) (w : Measure.World) :
  0 <= count <= GoInt.max_int ->
  exists b, Measure.value (benchmarkGoodUser_run count w) = Some b
            /\ totalMemory b = (24 * count) mod 2 ^ 64
            /\ GoSlice.len (users b) = count.
Proof.
  intros [Hc Hmax]. unfold benchmarkGoodUser_run, Measure.bind, Measure.time_now,
    Measure.time_since, Measure.bind, Measure.lift, GoSlice.for_upto.
  rewrite make_ok by lia. simpl.
  destruct (iterate_append good_user (Z.to_nat count) 0 []) as [d [Hrun Hlen]].
  rewrite Hrun. simpl. eexists. split; [reflexivity|]. simpl.
  assert (Hl : GoSlice.len d = count) by (unfold GoSlice.len; rewrite Hlen; simpl; lia).
  split; [|exact Hl].
  rewrite Hl. unfold GoUintptr.mul, GoUintptr.wrap.
  change (sizeof GoodUser.fields) with 24.
  rewrite (Z.mod_small count); [reflexivity|].
  unfold GoInt.max_int in Hmax. lia.
Qed.

(** The first records the loop of [benchmarkBadUser] appends. *)
Example bad_users_3 :
  Measure.observed users (benchmarkBadUser_run 3) Measure.ticking
  = Some [ BadUser.mk 0 true "User_0_Test_Name_That_Is_Long" 0;
           BadUser.mk 1 false "User_1_Test_Name_That_Is_Long" 1;
           BadUser.mk 2 true "User_2_Test_Name_That_Is_Long" 2 ].
Proof. reflexivity. Qed.

(** C4: the record laid out as 4-byte int, 1-byte flag, 16-byte string,
    1-byte int ([BadUser]) occupies 32 bytes, the reordered [GoodUser]
    occupies 24 bytes under the alignment rules of a 64-bit host, and the
    reordered record, which has the same fields, is strictly smaller.
    The offsets and the padding are those [explainMemoryLayout] prints. *)
Theorem struct_sizes :
  map (fun f => sizeof_type (snd f)) BadUser.fields = [4; 1; 16; 1]
  /\ sizeof BadUser.fields = 32
  /\ sizeof GoodUser.fields = 24
  /\ sizeof GoodUser.fields < sizeof BadUser.fields
  /\ Permutation BadUser.fields GoodUser.fields
  /\ offsets BadUser.fields
     = [("ID", 0); ("Active", 4); ("Name", 8); ("Age", 24)]%string
  /\ offsets GoodUser.fields
     = [("ID", 0); ("Age", 4); ("Active", 5); ("Name", 8)]%string
  /\ padding BadUser.fields = 10
  /\ padding GoodUser.fields = 2.
Proof.
  repeat split; try reflexivity.
  unfold BadUser.fields, GoodUser.fields.
  apply perm_skip.
  eapply perm_trans; [apply perm_skip; apply perm_swap | apply perm_swap].
Qed.

End Day1Facts.

Module ProjectionFacts.
Import Projection.

(** C6, as the code has it: the cost projection of day 2 computes the
    monthly figure as the binary64 product of the daily figure by 30 and
    the annual figure as the binary64 product of the monthly figure by
    12, for every pair of measured times and allocation counts.  The
    projections of day 1 and day 3 compute no daily figure; their annual
    figure is the binary64 product of the monthly figure by 12. *)
Theorem projections_monthly_annual :
  (forall t1 t2 alloc1 alloc2,
     thirty_twelve (of_day2 (Day2.calculateCostImpact t1 t2 alloc1 alloc2)))
  /\ (forall beforeMem afterMem,
        let p := of_day1 (Day1.calculateCostImpact beforeMem afterMem) in
        daily p = None /\ annual p = (monthly p * 12)%float)
  /\ (let p := of_day3 Day3.calculateMapCostImpact in
      daily p = None /\ annual p = (monthly p * 12)%float).
Proof.
  split; [|split].
  - intros t1 t2 alloc1 alloc2. split; [|reflexivity].
    eexists. split; reflexivity.
  - intros beforeMem afterMem. split; reflexivity.
  - split; reflexivity.
Qed.

(** C6 fails as stated: the projection of day 1, on the byte totals of one
    million 32-byte and 24-byte records, has no daily figure that the
    monthly figure could be thirty times of. *)
Lemma day1_projection_has_no_daily_figure :
  ~ thirty_twelve (of_day1 (Day1.calculateCostImpact 32000000 24000000)).
Proof.
  intros [[d [Hd _]] _]. discriminate Hd.
Qed.

(** The products are binary64 products: for one nanosecond saved the
    monthly figure of day 2 is not the rational number thirty times the
    daily figure. *)
Lemma day2_monthly_rounds :
  let s := Day2.calculateCostImpact 1 0 0 0 in
  exists d m,
    GoFloat.to_Q (Day2.dailySavings s) = Some d
    /\ GoFloat.to_Q (Day2.monthlySavings s) = Some m
    /\ ~ (m == (30 # 1) * d)%Q.
Proof.
  eexists; eexists. split; [vm_compute; reflexivity|].
  split; [vm_compute; reflexivity|].
  intros H. apply Qeq_bool_iff in H. vm_compute in H. discriminate.
Qed.

End ProjectionFacts.

Module Determinism.
Import Measure.

Ltac same_run :=
  unfold observed, bind, lift, time_since, time_now, bind, ret, panic;
  repeat match goal with
         | |- context [match ?o with Some _ => _ | None => _ end] => destruct o
         end;
  reflexivity.

(** C7: two runs of a measurement function with the same count differ at
    most in the elapsed time.  The allocation count the day 2 functions
    return and the slice they build, and the byte total the day 1
    functions return and the slice they build, are the same whatever
    the clock reads; if one run panics, so does the other. *)
Theorem measurements_repeat (count : Z) (w1 w2 : World) :
  observed snd (Day2.benchmarkNaiveAppend count) w1
  = observed snd (Day2.benchmarkNaiveAppend count) w2
  /\ observed snd (Day2.benchmarkWithMake count) w1
     = observed snd (Day2.benchmarkWithMake count) w2
  /\ observed snd (Day2.benchmarkFixedArray count) w1
     = observed snd (Day2.benchmarkFixedArray count) w2
  /\ observed snd (Day1.benchmarkBadUser count) w1
     = observed snd (Day1.benchmarkBadUser count) w2
  /\ observed snd (Day1.benchmarkGoodUser count) w1
     = observed snd (Day1.benchmarkGoodUser count) w2
  /\ observed Day2.data (Day2.benchmarkNaiveAppend_run count) w1
     = observed Day2.data (Day2.benchmarkNaiveAppend_run count) w2
  /\ observed Day2.data (Day2.benchmarkWithMake_run count) w1
     = observed Day2.data (Day2.benchmarkWithMake_run count) w2
  /\ observed Day2.data (Day2.benchmarkFixedArray_run count) w1
     = observed Day2.data (Day2.benchmarkFixedArray_run count) w2
  /\ observed Day1.users (Day1.benchmarkBadUser_run count) w1
     = observed Day1.users (Day1.benchmarkBadUser_run count) w2
  /\ observed Day1.users (Day1.benchmarkGoodUser_run count) w1
     = observed Day1.users (Day1.benchmarkGoodUser_run count) w2.
Proof.
  repeat split.
  - unfold Day2.benchmarkNaiveAppend, Day2.benchmarkNaiveAppend_run. same_run.
  - unfold Day2.benchmarkWithMake, Day2.benchmarkWithMake_run. same_run.
  - unfold Day2.benchmarkFixedArray, Day2.benchmarkFixedArray_run. same_run.
  - unfold Day1.benchmarkBadUser, Day1.benchmarkBadUser_run. same_run.
  - unfold Day1.benchmarkGoodUser, Day1.benchmarkGoodUser_run. same_run.
  - unfold Day2.benchmarkNaiveAppend_run. same_run.
  - unfold Day2.benchmarkWithMake_run. same_run.
  - unfold Day2.benchmarkFixedArray_run. same_run.
  - unfold Day1.benchmarkBadUser_run. same_run.
  - unfold Day1.benchmarkGoodUser_run. same_run.
Qed.

(** The elapsed time does depend on the clock. *)
Lemma elapsed_depends_on_clock :
  observed fst (Day2.benchmarkNaiveAppend 3) ticking = Some 1
  /\ observed fst (Day2.benchmarkNaiveAppend 3) frozen = Some 0.
Proof. split; reflexivity. Qed.

End Determinism.

(* ================================================================== *)
(** * Further properties of the growth table *)

Module GrowthBounds.
Import Day2.

Lemma two_62 : 2 ^ 62 = 4611686018427387904.
Proof. reflexivity. Qed.

(** While the loop runs towards a target of at most 2^62, the capacity
    stays below twice the target. *)
Lemma growth_loop_below_double (fuel : nat) :
  forall target cap r c' r',
    1 <= target <= 2 ^ 62 -> 0 <= cap < 2 * target ->
    growth_loop fuel target cap r = Some (c', r') ->
    target <= c' < 2 * target.
Proof.
  rewrite two_62.
  induction fuel as [|fuel IH]; intros target cap r c' r' Ht Hc Hrun; [discriminate|].
  simpl in Hrun. destruct (Z.ltb_spec cap target).
  - apply IH in Hrun; [exact Hrun | exact Ht |].
    destruct (Z.eq_dec cap 0) as [->|Hnz]; [rewrite Day2Facts.grow_zero; lia|].
    destruct (Z_lt_le_dec cap 1024).
    + rewrite Day2Facts.grow_double by lia. lia.
    + assert (Hq : 0 <= cap / 4 <= cap / 1).
      { split; [apply Z.div_pos; lia | apply Z.div_le_compat_l; lia]. }
      rewrite Z.div_1_r in Hq.
      assert (cap / 4 < cap) by (apply Z.div_lt_upper_bound; lia).
      rewrite Day2Facts.grow_quarter by (unfold GoInt.max_int; simpl; lia). lia.
  - injection Hrun as <- <-. lia.
Qed.

(** X1: for a target from 1 to 2^62, [calculateGrowth] returns a capacity
    that covers the target and is below twice the target; the waste it
    returns is the difference, at least 0 and below the target. *)
Theorem calculateGrowth_wastes_less_than_target (target : Z) :
  1 <= target <= 2 ^ 62 ->
  exists r, calculateGrowth 176 target = Some r
            /\ target <= finalCap r < 2 * target
            /\ waste r = finalCap r - target
            /\ 0 <= waste r < target.
Proof.
  intros Ht. pose proof two_62 as H62.
  destruct (Day2Facts.growth_loop_reaches 175 target 0 0) as [[c k] [Hrun _]].
  { rewrite Day2Facts.cap_after_175. unfold last_safe_cap. lia. }
  assert (H0 : 0 <= 0 < 2 * target) by lia.
  pose proof (growth_loop_below_double _ _ _ _ _ _ Ht H0 Hrun) as Hb.
  unfold calculateGrowth. rewrite Hrun. eexists. split; [reflexivity|]. cbn [finalCap waste reallocs].
  assert (Hw : GoInt.sub c target = c - target).
  { apply wrap_id. unfold GoInt.in_range, GoInt.min_int, GoInt.max_int. simpl. lia. }
  rewrite Hw. lia.
Qed.

Lemma calculateGrowth_wastes_less_than_target_witness :
  exists r, calculateGrowth 176 100000 = Some r
            /\ 100000 <= finalCap r < 2 * 100000
            /\ waste r = finalCap r - 100000
            /\ 0 <= waste r < 100000.
Proof.
  apply (calculateGrowth_wastes_less_than_target 100000). simpl. lia.
Defined.

(** Up to 1024 the capacity is 0 or two to the number of reallocations. *)
Lemma growth_loop_power_of_two (fuel : nat) :
  forall target cap r c' r',
    target <= 1024 ->
    (cap = 0 /\ r = 0) \/ (0 <= r <= 10 /\ cap = 2 ^ r) ->
    growth_loop fuel target cap r = Some (c', r') ->
    (c' = 0 /\ r' = 0) \/ (0 <= r' <= 10 /\ c' = 2 ^ r').
Proof.
  induction fuel as [|fuel IH]; intros target cap r c' r' Ht Hinv Hrun; [discriminate|].
  simpl in Hrun. destruct (Z.ltb_spec cap target).
  - apply IH in Hrun; [exact Hrun | exact Ht |].
    destruct Hinv as [[-> ->]|[Hr ->]].
    + right. simpl. split; [lia | reflexivity].
    + right.
      assert (Hlt : r < 10).
      { destruct (Z_lt_le_dec r 10); [assumption|].
        assert (2 ^ 10 <= 2 ^ r) by (apply Z.pow_le_mono_r; lia).
        change (2 ^ 10) with 1024 in *. lia. }
      assert (Hpos : 0 < 2 ^ r) by (apply Z.pow_pos_nonneg; lia).
      destruct (Z.ltb_spec 0 (2 ^ r)); [|lia].
      assert (Hadd : GoInt.add r 1 = r + 1).
      { apply wrap_id. unfold GoInt.in_range, GoInt.min_int, GoInt.max_int. simpl. lia. }
      rewrite Hadd. split; [lia|].
      rewrite Day2Facts.grow_double by lia.
      rewrite Z.pow_add_r by lia. change (2 ^ 1) with 2. lia.
  - injection Hrun as <- <-. exact Hinv.
Qed.

(** X2: for a target from 1 to 1024, the final capacity is two to the
    number of reallocations, and it is the least power of two that
    covers the target. *)
Theorem calculateGrowth_power_of_two (target : Z) :
  1 <= target <= 1024 ->
  exists r, calculateGrowth 12 target = Some r
            /\ 0 <= reallocs r <= 10
            /\ finalCap r = 2 ^ reallocs r
            /\ target <= finalCap r < 2 * target.
Proof.
  intros Ht.
  destruct (Day2Facts.growth_loop_reaches 11 target 0 0) as [[c k] [Hrun _]].
  { change (cap_after 11 0) with 1024. lia. }
  assert (Hle : target <= 1024) by lia.
  pose proof (growth_loop_power_of_two _ _ _ 0 _ _ Hle (or_introl (conj eq_refl eq_refl)) Hrun) as Hp.
  assert (Hb : target <= c < 2 * target).
  { apply (growth_loop_below_double _ _ _ _ _ _) with (3 := Hrun); [rewrite two_62|]; lia. }
  unfold calculateGrowth. rewrite Hrun. eexists. split; [reflexivity|]. cbn [finalCap waste reallocs].
  destruct Hp as [[-> _]|[Hk Hc]]; [lia|].
  repeat split; try lia; exact Hc.
Qed.

Lemma calculateGrowth_power_of_two_witness :
  exists r, calculateGrowth 12 100 = Some r
            /\ 0 <= reallocs r <= 10
            /\ finalCap r = 2 ^ reallocs r
            /\ 100 <= finalCap r < 2 * 100.
Proof.
  apply (calculateGrowth_power_of_two 100). lia.
Defined.

(** Past 1024 the capacity stays below five quarters of the target. *)
Lemma growth_loop_below_five_quarters (fuel : nat) :
  forall target cap r c' r',
    1024 < target <= 2 ^ 62 ->
    (cap = 0 \/ (exists k, 0 <= k <= 10 /\ cap = 2 ^ k) \/ (1024 < cap /\ 4 * cap < 5 * target)) ->
    growth_loop fuel target cap r = Some (c', r') ->
    target <= c' /\ 4 * c' < 5 * target.
Proof.
  rewrite two_62.
  induction fuel as [|fuel IH]; intros target cap r c' r' Ht Hinv Hrun; [discriminate|].
  simpl in Hrun. destruct (Z.ltb_spec cap target) as [Hlt|Hge].
  - apply IH in Hrun; [exact Hrun | exact Ht |].
    destruct Hinv as [->|[[k [Hk ->]]|[Hbig Hq]]].
    + right; left. exists 0. split; [lia | reflexivity].
    + destruct (Z.eq_dec k 10) as [->|Hne].
      * right; right. change (2 ^ 10) with 1024.
        change (grow 1024) with 1280. lia.
      * right; left. exists (k + 1). split; [lia|].
        assert (Hpos : 0 < 2 ^ k) by (apply Z.pow_pos_nonneg; lia).
        assert (2 ^ k < 2 ^ 10) by (apply Z.pow_lt_mono_r; lia).
        change (2 ^ 10) with 1024 in *.
        rewrite Day2Facts.grow_double by lia.
        rewrite Z.pow_add_r by lia. change (2 ^ 1) with 2. lia.
    + right; right.
      assert (Hd : 4 * (cap / 4) <= cap) by (apply Z.mul_div_le; lia).
      assert (256 <= cap / 4) by (apply Z.div_le_lower_bound; lia).
      rewrite Day2Facts.grow_quarter by (unfold GoInt.max_int; simpl; lia). lia.
  - injection Hrun as <- <-.
    destruct Hinv as [->|[[k [Hk ->]]|[Hbig Hq]]]; [lia| |lia].
    assert (2 ^ k <= 2 ^ 10) by (apply Z.pow_le_mono_r; lia).
    change (2 ^ 10) with 1024 in *. lia.
Qed.

(** X3: for a target above 1024 (and up to 2^62) the final capacity is
    below five quarters of the target: the waste is less than a quarter
    of the target, so less than a fifth of the capacity. *)
Theorem calculateGrowth_wastes_less_than_quarter (target : Z) :
  1024 < target <= 2 ^ 62 ->
  exists r, calculateGrowth 176 target = Some r
            /\ target <= finalCap r
            /\ 4 * finalCap r < 5 * target
            /\ 4 * waste r < target
            /\ 5 * waste r < finalCap r.
Proof.
  intros Ht. pose proof two_62 as H62.
  destruct (Day2Facts.growth_loop_reaches 175 target 0 0) as [[c k] [Hrun _]].
  { rewrite Day2Facts.cap_after_175. unfold last_safe_cap. lia. }
  destruct (growth_loop_below_five_quarters _ _ _ _ _ _ Ht (or_introl eq_refl) Hrun) as [Hc Hq].
  unfold calculateGrowth. rewrite Hrun. eexists. split; [reflexivity|]. cbn [finalCap waste reallocs].
  assert (Hw : GoInt.sub c target = c - target).
  { apply wrap_id. unfold GoInt.in_range, GoInt.min_int, GoInt.max_int. simpl. lia. }
  rewrite Hw. lia.
Qed.

Lemma calculateGrowth_wastes_less_than_quarter_witness :
  exists r, calculateGrowth 176 100000 = Some r
            /\ 100000 <= finalCap r
            /\ 4 * finalCap r < 5 * 100000
            /\ 4 * waste r < 100000
            /\ 5 * waste r < finalCap r.
Proof.
  apply (calculateGrowth_wastes_less_than_quarter 100000). simpl. lia.
Defined.

End GrowthBounds.

(* ================================================================== *)
(** * The tests of day 2 *)

Section LoopInvariant.

Context {S : Type} (P : Z -> S -> Prop) (body : Z -> S -> option S).

(** A loop keeps an invariant that its body keeps, and does not panic. *)
Lemma iterate_invariant (n : nat) :
  forall i s,
    P i s ->
    (forall j s, i <= j < i + Z.of_nat n -> P j s ->
                 exists s', body j s = Some s' /\ P (j + 1) s') ->
    exists s', GoSlice.iterate n i body s = Some s' /\ P (i + Z.of_nat n) s'.
Proof.
  induction n as [|n IH]; intros i s Hs Hbody.
  - exists s. simpl. rewrite Z.add_0_r. split; [reflexivity | exact Hs].
  - destruct (Hbody i s ltac:(lia) Hs) as [s1 [Hb Hs1]].
    destruct (IH (i + 1) s1 Hs1) as [s' [Hrun Hs']].
    { intros j t Hj Ht. apply Hbody; [lia | exact Ht]. }
    exists s'. cbn [GoSlice.iterate]. rewrite Hb. split; [exact Hrun|].
    replace (i + Z.of_nat (Datatypes.S n)) with (i + 1 + Z.of_nat n) by lia. exact Hs'.
Qed.

End LoopInvariant.

Module Day2TestsFacts.
Import Day2 Day2Tests.

Lemma len_append (growslice : Z -> Z -> Z) (s : Slice) (v : Z) :
  len (append growslice s v) = len s + 1.
Proof.
  unfold append. destruct (len s + 1 <=? cap s); unfold len; simpl;
    rewrite length_app; simpl; lia.
Qed.

Lemma cap_append_in_place (growslice : Z -> Z -> Z) (s : Slice) (v : Z) :
  len s + 1 <= cap s -> cap (append growslice s v) = cap s.
Proof.
  intros H. unfold append. destruct (Z.leb_spec (len s + 1) (cap s)); [reflexivity | lia].
Qed.

Lemma cap_append_full (growslice : Z -> Z -> Z) (s : Slice) (v : Z) :
  cap s < len s + 1 -> cap (append growslice s v) = growslice (cap s) (len s + 1).
Proof.
  intros H. unfold append. destruct (Z.leb_spec (len s + 1) (cap s)); [lia | reflexivity].
Qed.

(** Appending [n] elements to a slice that has room for them leaves the
    capacity alone. *)
Lemma append_upto_with_room (growslice : Z -> Z -> Z) (n : Z) (s : Slice) :
  0 <= n -> len s + n <= cap s ->
  exists s', append_upto growslice n s = Some s'
             /\ len s' = len s + n /\ cap s' = cap s.
Proof.
  intros Hn Hroom. unfold append_upto, GoSlice.for_upto.
  destruct (iterate_invariant
              (fun j t => len t = len s + j /\ cap t = cap s)
              (fun i t => Some (append growslice t i)) (Z.to_nat n) 0 s)
    as [s' [Hrun [Hl Hc]]].
  - split; [lia | reflexivity].
  - intros j t Hj [Hl Hc]. eexists. split; [reflexivity|].
    rewrite len_append, cap_append_in_place; lia.
  - exists s'. split; [exact Hrun|]. split; [lia | exact Hc].
Qed.

(** X4: whatever capacities the runtime chooses, appending [size]
    elements to [make([]int, 0, size)] never changes the capacity: the
    slice ends with length and capacity [size]. *)
Theorem presized_append_keeps_capacity (growslice : Z -> Z -> Z) (size : Z) :
  0 <= size ->
  exists s0 s2, make size = Some s0
                /\ append_upto growslice size s0 = Some s2
                /\ len s2 = size /\ cap s2 = size.
Proof.
  intros Hs. unfold make. destruct (Z.ltb_spec size 0); [lia|].
  destruct (append_upto_with_room growslice size (mkSlice [] size) Hs) as [s2 [Hrun [Hl Hc]]].
  { unfold len, cap. simpl. lia. }
  exists (mkSlice [] size), s2. split; [reflexivity|]. split; [exact Hrun|].
  unfold len, cap in *. simpl in *. lia.
Qed.

Lemma presized_append_keeps_capacity_witness :
  exists s0 s2, make 1000 = Some s0
                /\ append_upto (fun _ needed => 2 * needed) 1000 s0 = Some s2
                /\ len s2 = 1000 /\ cap s2 = 1000.
Proof.
  apply (presized_append_keeps_capacity (fun _ needed => 2 * needed) 1000). lia.
Defined.

Lemma presized (growslice : Z -> Z -> Z) (size : Z) :
  0 <= size ->
  make size = Some (mkSlice [] size)
  /\ exists s2, append_upto growslice size (mkSlice [] size) = Some s2
                /\ len s2 = size /\ cap s2 = size.
Proof.
  intros Hs. unfold make. destruct (Z.ltb_spec size 0); [lia|].
  split; [reflexivity|].
  destruct (append_upto_with_room growslice size (mkSlice [] size) Hs) as [s2 [Hrun [Hl Hc]]].
  { unfold len, cap. simpl. lia. }
  exists s2. split; [exact Hrun|]. unfold len, cap in *. simpl in *. lia.
Qed.

(** Naive appends keep the length within the capacity when the runtime
    gives at least what is needed. *)
Lemma append_upto_naive (growslice : Z -> Z -> Z) (n : Z) :
  (forall old needed, 0 <= needed <= GoInt.max_int ->
                      needed <= growslice old needed <= GoInt.max_int) ->
  0 <= n <= GoInt.max_int ->
  exists s', append_upto growslice n nil = Some s'
             /\ len s' = n /\ len s' <= cap s' <= GoInt.max_int.
Proof.
  intros Hgrow Hn. unfold append_upto, GoSlice.for_upto.
  destruct (iterate_invariant
              (fun j t => len t = j /\ len t <= cap t <= GoInt.max_int)
              (fun i t => Some (append growslice t i)) (Z.to_nat n) 0 nil)
    as [s' [Hrun [Hl Hc]]].
  - unfold len, cap, nil, GoInt.max_int. simpl. lia.
  - intros j t Hj [Hl Hc]. eexists. split; [reflexivity|].
    rewrite len_append. split; [lia|].
    destruct (Z_le_gt_dec (len t + 1) (cap t)).
    + rewrite cap_append_in_place; lia.
    + rewrite cap_append_full by lia. apply Hgrow. unfold len in *. lia.
  - exists s'. split; [exact Hrun|]. split; [lia | exact Hc].
Qed.

(** X5: [Test_MemoryEfficiency] cannot fail on a runtime whose [append]
    gives at least the capacity that is needed: for every size the
    pre-allocated slice wastes nothing and the naive slice wastes 0 or
    more. *)
Theorem memoryEfficiency_passes (growslice : Z -> Z -> Z) (size : Z) :
  (forall old needed, 0 <= needed <= GoInt.max_int ->
                      needed <= growslice old needed <= GoInt.max_int) ->
  0 <= size <= GoInt.max_int ->
  exists r, memoryEfficiency growslice size = Some r
            /\ waste2 r = 0 /\ 0 <= waste1 r /\ efficiency_failed r = false.
Proof.
  intros Hgrow Hs. unfold memoryEfficiency.
  destruct (append_upto_naive growslice size Hgrow Hs) as [s1 [Hrun1 [Hl1 Hc1]]].
  destruct (presized growslice size ltac:(lia)) as [Hmake [s2 [Hrun2 [Hl2 Hc2]]]].
  rewrite Hrun1, Hmake, Hrun2. eexists. split; [reflexivity|].
  cbn [waste1 waste2 efficiency_failed].
  assert (Hw1 : GoInt.sub (cap s1) (len s1) = cap s1 - len s1).
  { apply wrap_id. unfold GoInt.in_range, GoInt.min_int, GoInt.max_int in *.
    simpl in *. lia. }
  assert (Hw2 : GoInt.sub (cap s2) (len s2) = 0).
  { unfold GoInt.sub. rewrite Hl2, Hc2, Z.sub_diag. reflexivity. }
  rewrite Hw1, Hw2. split; [reflexivity|]. split; [lia|].
  apply Z.ltb_ge. lia.
Qed.

Lemma memoryEfficiency_passes_witness :
  exists r, memoryEfficiency (fun _ needed => Z.min (2 * needed) GoInt.max_int) 1000 = Some r
            /\ waste2 r = 0 /\ 0 <= waste1 r /\ efficiency_failed r = false.
Proof.
  apply (memoryEfficiency_passes (fun _ needed => Z.min (2 * needed) GoInt.max_int) 1000).
  - intros old needed. unfold GoInt.max_int.
    change (2 ^ 63 - 1) with 9223372036854775807. lia.
  - unfold GoInt.max_int. simpl. lia.
Defined.

Lemma cap_after_succ (k : nat) : forall c, cap_after (S k) c = grow (cap_after k c).
Proof.
  induction k as [|k IH]; intros c; [reflexivity|].
  change (cap_after (S (S k)) c) with (cap_after (S k) (grow c)).
  rewrite IH. reflexivity.
Qed.

(** From a positive capacity the loop of [calculateGrowth] stops at the
    first capacity of the sequence that covers the target, after one
    reallocation per step. *)
Lemma growth_loop_first_cover (k : nat) :
  forall target c r,
    (forall m, (m <= k)%nat -> 0 < cap_after m c) ->
    (forall m, (m < k)%nat -> cap_after m c < target) ->
    target <= cap_after k c ->
    0 <= r -> r + Z.of_nat k <= GoInt.max_int ->
    growth_loop (S k) target c r = Some (cap_after k c, r + Z.of_nat k).
Proof.
  induction k as [|k IH]; intros target c r Hpos Hlow Hcov Hr Hmax.
  - simpl in *. destruct (Z.ltb_spec c target); [lia|]. now rewrite Z.add_0_r.
  - change (growth_loop (S (S k)) target c r)
      with (if c <? target
            then growth_loop (S k) target (grow c)
                   (if 0 <? c then GoInt.add r 1 else r)
            else Some (c, r)).
    pose proof (Hlow 0%nat ltac:(lia)) as H0. simpl in H0.
    pose proof (Hpos 0%nat ltac:(lia)) as Hc. simpl in Hc.
    destruct (Z.ltb_spec c target); [|lia].
    destruct (Z.ltb_spec 0 c); [|lia].
    assert (Hadd : GoInt.add r 1 = r + 1).
    { apply wrap_id. unfold GoInt.in_range, GoInt.min_int, GoInt.max_int in *. lia. }
    rewrite Hadd.
    rewrite (IH target (grow c) (r + 1)).
    + f_equal. f_equal. lia.
    + intros m Hm. apply (Hpos (S m)). lia.
    + intros m Hm. apply (Hlow (S m)). lia.
    + exact Hcov.
    + lia.
    + lia.
Qed.

(** The slice of the counting loop is the slice of the plain loop. *)
Lemma counting_loop_slice (growslice : Z -> Z -> Z) (n : nat) :
  forall i s c s' c',
    GoSlice.iterate n i (counting_body growslice) (s, c) = Some (s', c') ->
    GoSlice.iterate n i (fun i t => Some (append growslice t i)) s = Some s'.
Proof.
  induction n as [|n IH]; intros i s c s' c' Hrun.
  - simpl in *. now injection Hrun as -> _.
  - cbn [GoSlice.iterate counting_body] in *. eapply IH. exact Hrun.
Qed.

Lemma counting_loop_counted (growslice : Z -> Z -> Z) (size : Z) :
  (forall c, 0 <= c <= 2 ^ 62 -> growslice c (c + 1) = grow c) ->
  0 <= size <= 2 ^ 62 ->
  exists st, GoSlice.for_upto size (counting_body growslice) (nil, 0) = Some st
             /\ counted size st.
Proof.
  intros Hlaw Hsize. pose proof GrowthBounds.two_62 as H62. unfold GoSlice.for_upto.
  destruct (iterate_invariant counted (counting_body growslice) (Z.to_nat size) 0 (nil, 0))
    as [st [Hrun Hst]].
  - exists 0%nat. unfold len, cap, nil. simpl. repeat split; try lia.
  - intros j [t c] Hj (k & Hl & Hc & Hk & Hjk & Hlow & Hpos). simpl in Hl, Hc, Hk.
    eexists. split; [reflexivity|].
    assert (Hnonneg : 0 <= cap_after k 0).
    { destruct k; [simpl; lia|]. specialize (Hpos (S k)). lia. }
    destruct (Z_le_gt_dec (len t + 1) (cap t)) as [Hroom|Hfull].
    + exists k. cbn [fst snd]. rewrite len_append, cap_append_in_place by lia.
      destruct (Z.ltb_spec (cap t) (cap t)); [lia|].
      repeat split; try lia.
      * intros m Hm. specialize (Hlow m Hm). lia.
      * apply Hpos; lia.
    + assert (Hcap : cap t = j) by lia.
      assert (Hgrow : growslice (cap t) (len t + 1) = grow (cap t)).
      { rewrite Hl, <- Hcap. apply Hlaw. lia. }
      assert (Hinc : cap t < grow (cap t)).
      { apply Day2Facts.grow_increases; [lia|].
        assert (cap t / 4 <= cap t) by (apply Z.div_le_upper_bound; lia).
        unfold GoInt.max_int. change (2 ^ 63 - 1) with 9223372036854775807. lia. }
      exists (S k). cbn [fst snd]. rewrite len_append, cap_append_full by lia.
      rewrite Hgrow, cap_after_succ, <- Hc.
      destruct (Z.ltb_spec (cap t) (grow (cap t))); [|lia].
      assert (Hadd : GoInt.add c 1 = c + 1).
      { apply wrap_id. unfold GoInt.in_range, GoInt.min_int, GoInt.max_int.
        change (2 ^ 63 - 1) with 9223372036854775807.
        change (- 2 ^ 63) with (-9223372036854775808). lia. }
      rewrite Hadd.
      repeat split; try lia.
      * intros m Hm. destruct (Nat.eq_dec m k) as [->|Hne]; [lia|].
        specialize (Hlow m ltac:(lia)). lia.
      * intros m Hm. destruct (Nat.eq_dec m (S k)) as [->|Hne].
        -- rewrite cap_after_succ, <- Hc. lia.
        -- apply Hpos. lia.
  - exists st. split; [exact Hrun|].
    replace size with (0 + Z.of_nat (Z.to_nat size)) at 1 by lia. exact Hst.
Qed.

(** X6: on a runtime that grows a full slice by one step of the law of
    [calculateGrowth], [size] naive appends end with the capacity that
    [calculateGrowth size] returns, and the counter of
    [Test_PreallocationSavings] is its number of reallocations plus one
    (the first allocation).  The test passes for every size from 2 on, and
    fails for size 1. *)
Theorem naive_appends_follow_calculateGrowth (growslice : Z -> Z -> Z) (size : Z) :
  (forall c, 0 <= c <= 2 ^ 62 -> growslice c (c + 1) = grow c) ->
  1 <= size <= 2 ^ 62 ->
  exists g r,
    calculateGrowth_returns size g
    /\ cap_after_appends growslice size = Some (finalCap g)
    /\ preallocationSavings growslice size = Some r
    /\ allocCountNaive r = reallocs g + 1
    /\ allocCountPrealloc r = 1
    /\ savings_failed r = (size =? 1).
Proof.
  intros Hlaw Hsize. pose proof GrowthBounds.two_62 as H62.
  destruct (counting_loop_counted growslice size Hlaw ltac:(lia))
    as [[s1 c] [Hrun (k & Hl & Hc & Hk & Hjk & Hlow & Hpos)]].
  cbn [fst snd] in *.
  destruct k as [|k]; [simpl in Hjk; lia|].
  assert (Hloop : growth_loop (S (S k)) size 0 0 = Some (cap_after (S k) 0, Z.of_nat k)).
  { change (growth_loop (S (S k)) size 0 0)
      with (if 0 <? size then growth_loop (S k) size (grow 0) 0 else Some (0, 0)).
    destruct (Z.ltb_spec 0 size); [|lia].
    rewrite (growth_loop_first_cover k size (grow 0) 0).
    - reflexivity.
    - intros m Hm. apply (Hpos (S m)). lia.
    - intros m Hm. apply (Hlow (S m)). lia.
    - exact (proj2 Hjk).
    - lia.
    - unfold GoInt.max_int. change (2 ^ 63 - 1) with 9223372036854775807. lia. }
  exists (mkGrowth (cap_after (S k) 0) (Z.of_nat k) (GoInt.sub (cap_after (S k) 0) size)).
  destruct (presized growslice size ltac:(lia)) as [Hmake [s2 [Hrun2 _]]].
  unfold preallocationSavings, cap_after_appends, append_upto, GoSlice.for_upto in *.
  rewrite Hrun, (counting_loop_slice _ _ _ _ _ _ _ Hrun), Hmake, Hrun2.
  eexists. split; [exists (S (S k)); unfold calculateGrowth; now rewrite Hloop|].
  cbn [finalCap reallocs allocCountNaive allocCountPrealloc savings_failed option_map].
  split; [now rewrite Hc|]. split; [reflexivity|].
  cbn [allocCountNaive allocCountPrealloc savings_failed].
  split; [lia|]. split; [reflexivity|].
  rewrite Hk.
  destruct (Z.eqb_spec size 1) as [->|Hne].
  - apply Z.leb_le. lia.
  - apply Z.leb_gt.
    destruct k as [|k]; [|lia].
    change (cap_after 1 0) with 1 in Hjk. lia.
Qed.

Lemma naive_appends_follow_calculateGrowth_witness :
  exists g r,
    calculateGrowth_returns 1000 g
    /\ cap_after_appends growslice_by_law 1000 = Some (finalCap g)
    /\ preallocationSavings growslice_by_law 1000 = Some r
    /\ allocCountNaive r = reallocs g + 1
    /\ allocCountPrealloc r = 1
    /\ savings_failed r = (1000 =? 1).
Proof.
  apply (naive_appends_follow_calculateGrowth growslice_by_law 1000).
  - intros c Hc. reflexivity.
  - simpl. lia.
Defined.

(** On a runtime that follows the law of [calculateGrowth], every row
    of the table of [Test_SliceGrowthPattern] is met, and
    [Test_PreallocationSavings] counts 11 allocations against 1. *)
Theorem tests_pass_under_the_law :
  Test_SliceGrowthPattern growslice_by_law = []
  /\ Test_PreallocationSavings growslice_by_law
     = Some (mkPreallocationSavings 11 1 false)
  /\ Test_MemoryEfficiency growslice_by_law = Some (mkMemoryEfficiency 24 0 false).
Proof. repeat split; vm_compute; reflexivity. Qed.

Lemma append_upto_len (growslice : Z -> Z -> Z) (n : Z) (s : Slice) :
  0 <= n ->
  exists s', append_upto growslice n s = Some s' /\ len s' = len s + n.
Proof.
  intros Hn. unfold append_upto, GoSlice.for_upto.
  destruct (iterate_invariant (fun j t => len t = len s + j)
              (fun i t => Some (append growslice t i)) (Z.to_nat n) 0 s)
    as [s' [Hrun Hl]].
  - lia.
  - intros j t Hj Hl. eexists. split; [reflexivity|]. rewrite len_append. lia.
  - exists s'. split; [exact Hrun | lia].
Qed.

Lemma demo_rows_lengths (growslice : Z -> Z -> Z) (pattern : list Z) :
  forall s,
    Forall (fun n => 0 <= n) pattern ->
    map row_appends (demo_rows growslice pattern s) = pattern
    /\ map row_len (demo_rows growslice pattern s) = running_totals (len s) pattern.
Proof.
  induction pattern as [|n rest IH]; intros s Hpos; [split; reflexivity|].
  inversion Hpos as [|? ? Hn Hrest]; subst.
  destruct (append_upto_len growslice n s Hn) as [s' [Hrun Hl]].
  cbn [demo_rows running_totals]. rewrite Hrun. cbn [map row_appends row_len].
  destruct (IH s' Hrest) as [Ha Hb]. rewrite Ha, Hb, Hl. split; reflexivity.
Qed.

(** X7: [demoSliceGrowthProblem] carries its slice from one row to the
    next, so whatever the runtime does the length it prints is the
    running total of the pattern, not the [n] of the row: 1, 3, 6, 10,
    15, 24, 41 and 74 for the rows labelled 1, 2, 3, 4, 5, 9, 17 and
    33. *)
Theorem demo_rows_accumulate (growslice : Z -> Z -> Z) :
  map row_appends (demoSliceGrowthProblem growslice) = growthPattern
  /\ map row_len (demoSliceGrowthProblem growslice)
     = running_totals 0 growthPattern
  /\ running_totals 0 growthPattern = [1; 3; 6; 10; 15; 24; 41; 74].
Proof.
  destruct (demo_rows_lengths growslice growthPattern nil) as [Ha Hb].
  { unfold growthPattern. repeat constructor; lia. }
  split; [exact Ha|]. split; [exact Hb | reflexivity].
Qed.

End Day2TestsFacts.

(* ================================================================== *)
(** * The measurement functions at the edges *)

Module MeasurementFacts.
Import Measure.

(** The integers 0, 1, ..., count-1. *)
Lemma iterate_append_elements {A : Type} (f : Z -> A) (n : nat) :
  forall a s,
    GoSlice.iterate n (Z.of_nat a) (fun i d => Some (GoSlice.append d (f i))) s
    = Some (s ++ map (fun i => f (Z.of_nat i)) (seq a n))%list.
Proof.
  induction n as [|n IH]; intros a s.
  - simpl. now rewrite app_nil_r.
  - cbn [GoSlice.iterate].
    replace (Z.of_nat a + 1) with (Z.of_nat (S a)) by lia.
    rewrite IH. unfold GoSlice.append. rewrite <- app_assoc. reflexivity.
Qed.

Lemma iterate_naive_elements (n : nat) :
  forall a d c,
    option_map fst (GoSlice.iterate n (Z.of_nat a) Day2.naive_body (d, c))
    = Some (d ++ map Z.of_nat (seq a n))%list.
Proof.
  induction n as [|n IH]; intros a d c.
  - simpl. now rewrite app_nil_r.
  - cbn [GoSlice.iterate Day2.naive_body].
    replace (Z.of_nat a + 1) with (Z.of_nat (S a)) by lia.
    rewrite IH. unfold GoSlice.append. rewrite <- app_assoc. reflexivity.
Qed.

Lemma to_nat_negative (count : Z) : count < 0 -> Z.to_nat count = 0%nat.
Proof. intros H. destruct count; simpl; try lia; reflexivity. Qed.

(** X8: a negative count is an edge on which the strategies differ:
    [benchmarkNaiveAppend] runs no iteration and returns 0 allocations,
    while the four functions that call [make] with the count panic. *)
Theorem negative_count (count : Z) (w : World) :
  count < 0 ->
  observed snd (Day2.benchmarkNaiveAppend count) w = Some 0
  /\ observed Day2.data (Day2.benchmarkNaiveAppend_run count) w = Some []
  /\ Day2.benchmarkWithMake count w = Panic
  /\ Day2.benchmarkFixedArray count w = Panic
  /\ Day1.benchmarkBadUser count w = Panic
  /\ Day1.benchmarkGoodUser count w = Panic.
Proof.
  intros Hneg.
  unfold observed, Day2.benchmarkNaiveAppend, Day2.benchmarkNaiveAppend_run,
    Day2.benchmarkWithMake, Day2.benchmarkWithMake_run,
    Day2.benchmarkFixedArray, Day2.benchmarkFixedArray_run,
    Day1.benchmarkBadUser, Day1.benchmarkBadUser_run,
    Day1.benchmarkGoodUser, Day1.benchmarkGoodUser_run,
    bind, lift, time_now, time_since, bind, GoSlice.for_upto.
  rewrite !make_negative by exact Hneg.
  rewrite (to_nat_negative count Hneg).
  repeat split; reflexivity.
Qed.

Lemma negative_count_witness :
  observed snd (Day2.benchmarkNaiveAppend (-1)) ticking = Some 0
  /\ observed Day2.data (Day2.benchmarkNaiveAppend_run (-1)) ticking = Some []
  /\ Day2.benchmarkWithMake (-1) ticking = Panic
  /\ Day2.benchmarkFixedArray (-1) ticking = Panic
  /\ Day1.benchmarkBadUser (-1) ticking = Panic
  /\ Day1.benchmarkGoodUser (-1) ticking = Panic.
Proof.
  apply (negative_count (-1) ticking). lia.
Defined.

(** X9: for a count that is not negative the three strategies of day 2
    build the same slice, the integers 0, 1, ..., count-1 in order. *)
Theorem strategies_build_the_same_slice (count : Z) (w : World) :
  0 <= count ->
  let ints := map Z.of_nat (seq 0 (Z.to_nat count)) in
  observed Day2.data (Day2.benchmarkNaiveAppend_run count) w = Some ints
  /\ observed Day2.data (Day2.benchmarkWithMake_run count) w = Some ints
  /\ observed Day2.data (Day2.benchmarkFixedArray_run count) w = Some ints.
Proof.
  intros Hc ints.
  unfold observed, Day2.benchmarkNaiveAppend_run, Day2.benchmarkWithMake_run,
    Day2.benchmarkFixedArray_run, bind, lift, time_now, time_since, bind,
    GoSlice.for_upto.
  rewrite !make_ok by lia.
  split; [|split].
  - pose proof (iterate_naive_elements (Z.to_nat count) 0 [] 0) as H.
    change (Z.of_nat 0) with 0 in H.
    destruct (GoSlice.iterate (Z.to_nat count) 0 Day2.naive_body ([], 0))
      as [[d c]|]; [|discriminate].
    simpl in *. exact H.
  - pose proof (iterate_append_elements (fun i => i) (Z.to_nat count) 0 []) as H.
    simpl in H. unfold ret. simpl. rewrite H. reflexivity.
  - pose proof (Day3Facts.iterate_fill (fun i => i) (Z.to_nat count) []
                  (repeat 0 (Z.to_nat count)) (repeat_length _ _)) as H.
    simpl in H. unfold ret. simpl. rewrite H. reflexivity.
Qed.

Lemma strategies_build_the_same_slice_witness :
  observed Day2.data (Day2.benchmarkNaiveAppend_run 3) ticking = Some [0; 1; 2]
  /\ observed Day2.data (Day2.benchmarkWithMake_run 3) ticking = Some [0; 1; 2]
  /\ observed Day2.data (Day2.benchmarkFixedArray_run 3) ticking = Some [0; 1; 2].
Proof.
  apply (strategies_build_the_same_slice 3 ticking). lia.
Defined.

End MeasurementFacts.

(* ================================================================== *)
(** * Day 1: what the measurement functions build and project *)

Module Day1More.
Import Measure Day1.

Lemma two_58 : 2 ^ 58 = 288230376151711744.
Proof. reflexivity. Qed.

Lemma two_64 : 2 ^ 64 = 18446744073709551616.
Proof. reflexivity. Qed.

(** X10: for a count from 0 to 2^58 [benchmarkBadUser] returns 32 bytes per
    record and [benchmarkGoodUser] 24 bytes per record, without wrapping:
    the reordered records save 8 bytes each, a quarter of the total. *)
Theorem byte_totals (count : Z) (w : World) :
  0 <= count <= 2 ^ 58 ->
  exists bad good,
    observed snd (benchmarkBadUser count) w = Some bad
    /\ observed snd (benchmarkGoodUser count) w = Some good
    /\ bad = 32 * count /\ good = 24 * count
    /\ bad - good = 8 * count /\ 4 * (bad - good) = bad.
Proof.
  intros Hc. pose proof two_58 as H58. pose proof two_64 as H64.
  assert (Hmax : 0 <= count <= GoInt.max_int).
  { unfold GoInt.max_int. change (2 ^ 63 - 1) with 9223372036854775807. lia. }
  destruct (Day1Facts.benchmarkBadUser_run_spec count w Hmax) as [b [Hb [Hmb _]]].
  destruct (Day1Facts.benchmarkGoodUser_run_spec count w Hmax) as [g [Hg [Hmg _]]].
  exists (32 * count), (24 * count).
  unfold observed, benchmarkBadUser, benchmarkGoodUser, bind.
  destruct (benchmarkBadUser_run count w) as [b' wb|]; [|discriminate].
  destruct (benchmarkGoodUser_run count w) as [g' wg|]; [|discriminate].
  unfold ret, returned. cbn [value option_map snd] in *.
  injection Hb as ->. injection Hg as ->.
  rewrite Hmb, Hmg, H64, !Z.mod_small by lia.
  repeat split; lia.
Qed.

Lemma byte_totals_witness :
  exists bad good,
    observed snd (benchmarkBadUser 1000000) ticking = Some bad
    /\ observed snd (benchmarkGoodUser 1000000) ticking = Some good
    /\ bad = 32 * 1000000 /\ good = 24 * 1000000
    /\ bad - good = 8 * 1000000 /\ 4 * (bad - good) = bad.
Proof.
  apply (byte_totals 1000000 ticking). simpl. lia.
Defined.

Lemma bad_users_built (count : Z) (w : World) :
  0 <= count ->
  observed users (benchmarkBadUser_run count) w
  = Some (map (fun i => bad_user (Z.of_nat i)) (seq 0 (Z.to_nat count))).
Proof.
  intros Hc.
  unfold observed, benchmarkBadUser_run, bind, lift, time_now, time_since, bind,
    GoSlice.for_upto.
  rewrite make_ok by lia.
  pose proof (MeasurementFacts.iterate_append_elements bad_user (Z.to_nat count) 0 []) as H.
  simpl in H. unfold ret. simpl. rewrite H. reflexivity.
Qed.

Lemma good_users_built (count : Z) (w : World) :
  0 <= count ->
  observed users (benchmarkGoodUser_run count) w
  = Some (map (fun i => good_user (Z.of_nat i)) (seq 0 (Z.to_nat count))).
Proof.
  intros Hc.
  unfold observed, benchmarkGoodUser_run, bind, lift, time_now, time_since, bind,
    GoSlice.for_upto.
  rewrite make_ok by lia.
  pose proof (MeasurementFacts.iterate_append_elements good_user (Z.to_nat count) 0 []) as H.
  simpl in H. unfold ret. simpl. rewrite H. reflexivity.
Qed.

Lemma index_built {A : Type} (f : Z -> A) (n : nat) (i : Z) :
  0 <= i < Z.of_nat n ->
  GoSlice.index (map (fun k => f (Z.of_nat k)) (seq 0 n)) i = Some (f i).
Proof.
  intros Hi. unfold GoSlice.index. rewrite length_map, length_seq.
  destruct (Z.ltb_spec i 0); [lia|].
  destruct (Z.leb_spec (Z.of_nat n) i); [lia|]. cbn [orb].
  rewrite nth_error_map, nth_error_seq.
  destruct (Nat.ltb_spec (Z.to_nat i) n); [|lia].
  simpl. now rewrite Z2Nat.id by lia.
Qed.

Lemma age_in_range (i : Z) :
  0 <= i -> GoInt.to_int8 (GoInt.rem i 100) = i mod 100 /\ 0 <= i mod 100 <= 99.
Proof.
  intros Hi. unfold GoInt.rem, GoInt.to_int8.
  rewrite Z.rem_mod_nonneg by lia.
  pose proof (Z.mod_pos_bound i 100 ltac:(lia)) as Hb.
  change (2 ^ 7) with 128. change (2 ^ 8) with 256.
  rewrite (Z.mod_small (i mod 100 + 128)) by lia. lia.
Qed.

Lemma active_is_even (i : Z) : 0 <= i -> (GoInt.rem i 2 =? 0) = Z.even i.
Proof.
  intros Hi. unfold GoInt.rem. rewrite Z.rem_mod_nonneg by lia.
  rewrite Zmod_even. destruct (Z.even i); reflexivity.
Qed.

Lemma id_below_two_31 (i : Z) : 0 <= i < 2 ^ 31 -> GoInt.to_int32 i = i.
Proof.
  change (2 ^ 31) with 2147483648. intros Hi. unfold GoInt.to_int32.
  change (2 ^ 31) with 2147483648. change (2 ^ 32) with 4294967296.
  rewrite Z.mod_small; lia.
Qed.

Lemma id_wraps_from_two_31 (i : Z) :
  2 ^ 31 <= i < 2 ^ 32 -> GoInt.to_int32 i = i - 2 ^ 32.
Proof.
  change (2 ^ 31) with 2147483648. change (2 ^ 32) with 4294967296.
  intros Hi. unfold GoInt.to_int32.
  change (2 ^ 31) with 2147483648. change (2 ^ 32) with 4294967296.
  replace (i + 2147483648) with (i - 2147483648 + 1 * 4294967296) by lia.
  rewrite Z.mod_add by lia. rewrite Z.mod_small; lia.
Qed.

(** X11: the record at position [i] of the slice [benchmarkBadUser] builds
    and the one [benchmarkGoodUser] builds hold the same values, in a
    different field order: the name of user [i], the age [i mod 100]
    (always from 0 to 99, so never out of [int8]), the flag "[i] is
    even", and the ID [i] as long as [i] is below 2^31; from 2^31 on
    the ID wraps around to a negative [int32]. *)
Theorem records_built (count i : Z) (w : World) :
  0 <= i < count ->
  let bad := bad_user i in
  let good := good_user i in
  observed (fun b => GoSlice.index (users b) i) (benchmarkBadUser_run count) w
  = Some (Some bad)
  /\ observed (fun b => GoSlice.index (users b) i) (benchmarkGoodUser_run count) w
     = Some (Some good)
  /\ BadUser.Name bad = user_name i /\ GoodUser.Name good = user_name i
  /\ BadUser.Age bad = i mod 100 /\ GoodUser.Age good = i mod 100
  /\ 0 <= BadUser.Age bad <= 99
  /\ BadUser.Active bad = Z.even i /\ GoodUser.Active good = Z.even i
  /\ GoodUser.ID good = BadUser.ID bad
  /\ (i < 2 ^ 31 -> BadUser.ID bad = i)
  /\ (2 ^ 31 <= i < 2 ^ 32 -> BadUser.ID bad = i - 2 ^ 32).
Proof.
  intros Hi bad good.
  pose proof (bad_users_built count w ltac:(lia)) as Hb.
  pose proof (good_users_built count w ltac:(lia)) as Hg.
  unfold observed in *.
  destruct (value (benchmarkBadUser_run count w)) as [b|]; [|discriminate].
  destruct (value (benchmarkGoodUser_run count w)) as [g|]; [|discriminate].
  simpl in Hb, Hg. injection Hb as Hb. injection Hg as Hg.
  cbn [option_map]. rewrite Hb, Hg, !index_built by lia.
  destruct (age_in_range i ltac:(lia)) as [Hage Hrange].
  unfold bad, good, bad_user, good_user.
  cbn [BadUser.Name BadUser.Age BadUser.Active BadUser.ID
       GoodUser.Name GoodUser.Age GoodUser.Active GoodUser.ID].
  rewrite Hage, active_is_even by lia.
  repeat split; try reflexivity; try lia.
  - intros H. apply id_below_two_31. lia.
  - apply id_wraps_from_two_31.
Qed.

Lemma records_built_witness :
  observed (fun b => GoSlice.index (users b) 2) (benchmarkBadUser_run 3) ticking
  = Some (Some (bad_user 2))
  /\ observed (fun b => GoSlice.index (users b) 2) (benchmarkGoodUser_run 3) ticking
     = Some (Some (good_user 2)).
Proof.
  destruct (records_built 3 2 ticking ltac:(lia)) as (Hb & Hg & _).
  split; [exact Hb | exact Hg].
Defined.

(** X12: [calculateCostImpact] subtracts two [uintptr] totals.  When the
    total after is the larger one the difference wraps around, and the
    projection is that of a saving of 2^64 minus the increase: an
    increase of 8,000,000 bytes is projected as more than
    17,592,186,044,408 MB saved. *)
Theorem cost_impact_wraps (beforeMem afterMem : Z) :
  0 <= beforeMem < afterMem -> afterMem < 2 ^ 64 ->
  calculateCostImpact beforeMem afterMem
  = calculateCostImpact (2 ^ 64 - (afterMem - beforeMem)) 0
  /\ 0 < 2 ^ 64 - (afterMem - beforeMem) < 2 ^ 64.
Proof.
  intros Hb Ha. pose proof two_64 as H64. split; [|lia].
  unfold calculateCostImpact.
  assert (Hsub : GoUintptr.sub beforeMem afterMem
                 = GoUintptr.sub (2 ^ 64 - (afterMem - beforeMem)) 0).
  { unfold GoUintptr.sub, GoUintptr.wrap.
    replace (beforeMem - afterMem)
      with (2 ^ 64 - (afterMem - beforeMem) - 0 + (-1) * 2 ^ 64) by lia.
    now rewrite Z.mod_add by lia. }
  now rewrite Hsub.
Qed.

Lemma cost_impact_wraps_witness :
  calculateCostImpact 24000000 32000000
  = calculateCostImpact (2 ^ 64 - (32000000 - 24000000)) 0
  /\ 0 < 2 ^ 64 - (32000000 - 24000000) < 2 ^ 64.
Proof.
  apply (cost_impact_wraps 24000000 32000000); simpl; lia.
Defined.

(** The figure printed for that increase. *)
Example cost_impact_of_an_increase :
  memorySavedMB (calculateCostImpact 24000000 32000000) = 17592186044408.371%float.
Proof. vm_compute. reflexivity. Qed.

End Day1More.

(* ================================================================== *)
(** * Day 3: the binary search on any sorted slice *)

Module SearchFacts.
Import Day3 Day3Bench.

Lemma index_in_range {A : Type} (s : list A) (i : Z) :
  0 <= i < GoSlice.len s -> exists a, GoSlice.index s i = Some a.
Proof.
  intros Hi. unfold GoSlice.index, GoSlice.len in *.
  destruct (Z.ltb_spec i 0); [lia|].
  destruct (Z.leb_spec (Z.of_nat (List.length s)) i); [lia|]. cbn [orb].
  destruct (nth_error s (Z.to_nat i)) eqn:E; [now eexists|].
  apply nth_error_None in E. lia.
Qed.

Lemma index_some_range {A : Type} (s : list A) (i : Z) (a : A) :
  GoSlice.index s i = Some a -> 0 <= i < GoSlice.len s /\ In a s.
Proof.
  unfold GoSlice.index, GoSlice.len.
  destruct (Z.ltb_spec i 0); [discriminate|].
  destruct (Z.leb_spec (Z.of_nat (List.length s)) i); [discriminate|]. cbn [orb].
  intros Hnth. split; [lia|]. eapply nth_error_In. exact Hnth.
Qed.

Lemma in_index {A : Type} (s : list A) (a : A) :
  In a s -> exists i, GoSlice.index s i = Some a.
Proof.
  intros Hin. apply In_nth_error in Hin. destruct Hin as [n Hn].
  exists (Z.of_nat n). unfold GoSlice.index.
  assert (n < List.length s)%nat by (apply nth_error_Some; congruence).
  destruct (Z.ltb_spec (Z.of_nat n) 0); [lia|].
  destruct (Z.leb_spec (Z.of_nat (List.length s)) (Z.of_nat n)); [lia|]. cbn [orb].
  now rewrite Nat2Z.id.
Qed.

Lemma halves (low high : Z) (fuel : nat) :
  low <= high -> high - low + 1 < 2 ^ Z.of_nat (S fuel) ->
  high - ((low + high) / 2 + 1) + 1 < 2 ^ Z.of_nat fuel
  /\ (low + high) / 2 - 1 - low + 1 < 2 ^ Z.of_nat fuel.
Proof.
  intros Hle Hsize.
  rewrite Nat2Z.inj_succ, Z.pow_succ_r in Hsize by lia.
  assert (Hm : 2 * ((low + high) / 2) <= low + high < 2 * ((low + high) / 2) + 2).
  { pose proof (Z.div_mod (low + high) 2 ltac:(lia)) as Hd.
    pose proof (Z.mod_pos_bound (low + high) 2 ltac:(lia)). lia. }
  lia.
Qed.

(** The loop on a sorted slice: every position that holds the key lies
    between [low] and [high], and the distance between them halves. *)
Lemma search_loop_sorted (slice : list entry) (key : Z) (found : string) :
  strictly_sorted slice ->
  GoSlice.len slice <= 2 ^ 62 ->
  forall fuel low high,
    0 <= low -> -1 <= high < GoSlice.len slice ->
    high - low + 1 < 2 ^ Z.of_nat fuel ->
    (forall i e, GoSlice.index slice i = Some e -> Key e = key -> low <= i <= high) ->
    (exists i e, GoSlice.index slice i = Some e /\ Key e = key
                 /\ search_loop (S fuel) slice key low high found = Returned (Value e))
    \/ ((forall i e, GoSlice.index slice i = Some e -> Key e <> key)
        /\ search_loop (S fuel) slice key low high found = Returned found).
Proof.
  intros Hsorted Hlen. pose proof GrowthBounds.two_62 as H62.
  induction fuel as [|fuel IH]; intros low high Hlow Hhigh Hsize Hwithin.
  - right. change (2 ^ Z.of_nat 0) with 1 in Hsize.
    cbn [search_loop]. destruct (Z.leb_spec low high); [lia|].
    split; [|reflexivity].
    intros i e Hi Hk. specialize (Hwithin i e Hi Hk). lia.
  - change (search_loop (S (S fuel)) slice key low high found)
      with (if low <=? high
            then let mid := GoInt.quot (GoInt.add low high) 2 in
                 match GoSlice.index slice mid with
                 | None => Panicked
                 | Some e =>
                     if Key e =? key then Returned (Value e)
                     else if Key e <? key
                          then search_loop (S fuel) slice key (GoInt.add mid 1) high found
                          else search_loop (S fuel) slice key low (GoInt.sub mid 1) found
                 end
            else Returned found).
    destruct (Z.leb_spec low high) as [Hle|Hgt].
    + cbv zeta. rewrite Day3Facts.midpoint by lia.
      destruct (halves low high fuel Hle Hsize) as [Hup Hdown].
      assert (Hmid : low <= (low + high) / 2 <= high).
      { split; [apply Z.div_le_lower_bound | apply Z.div_le_upper_bound]; lia. }
      set (mid := (low + high) / 2) in *.
      destruct (index_in_range slice mid ltac:(lia)) as [e He]. rewrite He.
      destruct (Z.eqb_spec (Key e) key) as [Heq|Hne].
      * left. exists mid, e. repeat split; assumption.
      * assert (Hs1 : GoInt.add mid 1 = mid + 1).
        { apply wrap_id. unfold GoInt.in_range, GoInt.min_int, GoInt.max_int.
          change (- 2 ^ 63) with (-9223372036854775808).
          change (2 ^ 63 - 1) with 9223372036854775807. lia. }
        assert (Hs2 : GoInt.sub mid 1 = mid - 1).
        { apply wrap_id. unfold GoInt.in_range, GoInt.min_int, GoInt.max_int.
          change (- 2 ^ 63) with (-9223372036854775808).
          change (2 ^ 63 - 1) with 9223372036854775807. lia. }
        rewrite Hs1, Hs2.
        destruct (Z.ltb_spec (Key e) key) as [Hlt|Hge].
        -- apply IH; try lia.
           intros i a Hi Hk. specialize (Hwithin i a Hi Hk).
           destruct (Z_lt_le_dec mid i); [lia|].
           destruct (Z.eq_dec i mid) as [->|Hneq]; [congruence|].
           destruct (index_some_range _ _ _ Hi) as [Hri _].
           pose proof (Hsorted i mid a e ltac:(lia) Hi He). lia.
        -- apply IH; try lia.
           intros i a Hi Hk. specialize (Hwithin i a Hi Hk).
           destruct (Z_lt_le_dec i mid); [lia|].
           destruct (Z.eq_dec i mid) as [->|Hneq]; [congruence|].
           pose proof (Hsorted mid i e a ltac:(lia) He Hi). lia.
    + right. split; [|reflexivity].
      intros i e Hi Hk. specialize (Hwithin i e Hi Hk). lia.
Qed.

Lemma find_key_none (slice : list entry) (key : Z) :
  (forall e, In e slice -> Key e <> key) -> entry_of_key slice key = None.
Proof.
  unfold entry_of_key. induction slice as [|a rest IH]; intros H; [reflexivity|].
  simpl. destruct (Z.eqb_spec (Key a) key) as [Heq|_].
  - exfalso. apply (H a); [now left | exact Heq].
  - apply IH. intros e He. apply H. now right.
Qed.

(** On a sorted slice a key sits at one position at most. *)
Lemma sorted_key_unique (slice : list entry) (i j : Z) (a b : entry) :
  strictly_sorted slice ->
  GoSlice.index slice i = Some a -> GoSlice.index slice j = Some b ->
  Key a = Key b -> a = b.
Proof.
  intros Hs Hi Hj Hk.
  destruct (index_some_range _ _ _ Hi) as [Hri _].
  destruct (index_some_range _ _ _ Hj) as [Hrj _].
  destruct (Z.lt_trichotomy i j) as [Hlt|[->|Hgt]].
  - pose proof (Hs i j a b ltac:(lia) Hi Hj). lia.
  - congruence.
  - pose proof (Hs j i b a ltac:(lia) Hj Hi). lia.
Qed.

(** X13: on any slice whose keys increase strictly and whose length is
    below 2^k (k at most 62), the binary search ends within k+1
    evaluations of its loop condition and never indexes out of range.  If
    the slice has an entry with the key, [found] becomes the Value of
    that entry; if it has none, [found] keeps the value it had before,
    and nothing tells the caller that the key is missing. *)
Theorem binary_search_sorted (slice : list entry) (key : Z) (found : string) (k : nat) :
  strictly_sorted slice ->
  GoSlice.len slice < 2 ^ Z.of_nat k -> (k <= 62)%nat ->
  binary_search (S k) slice key found
  = match entry_of_key slice key with
    | Some e => Returned (Value e)
    | None => Returned found
    end.
Proof.
  intros Hsorted Hlen Hk. pose proof GrowthBounds.two_62 as H62.
  assert (Hpow : 2 ^ Z.of_nat k <= 2 ^ 62) by (apply Z.pow_le_mono_r; lia).
  assert (Hnn : 0 <= GoSlice.len slice) by (unfold GoSlice.len; lia).
  unfold binary_search.
  assert (Hsub : GoInt.sub (GoSlice.len slice) 1 = GoSlice.len slice - 1).
  { apply wrap_id. unfold GoInt.in_range, GoInt.min_int, GoInt.max_int.
    change (- 2 ^ 63) with (-9223372036854775808).
    change (2 ^ 63 - 1) with 9223372036854775807. lia. }
  rewrite Hsub.
  destruct (search_loop_sorted slice key found Hsorted ltac:(lia) k 0
              (GoSlice.len slice - 1))
    as [(i & e & Hi & Hkey & Hrun)|[Hnone Hrun]]; try lia.
  - intros i e Hi _. destruct (index_some_range _ _ _ Hi). lia.
  - rewrite Hrun.
    destruct (entry_of_key slice key) as [e'|] eqn:Hfind.
    + unfold entry_of_key in Hfind. apply find_some in Hfind.
      destruct Hfind as [Hin He']. apply Z.eqb_eq in He'.
      destruct (in_index _ _ Hin) as [j Hj].
      now rewrite (sorted_key_unique slice i j e e' Hsorted Hi Hj ltac:(lia)).
    + unfold entry_of_key in Hfind.
      destruct (index_some_range _ _ _ Hi) as [_ Hin].
      pose proof (find_none _ _ Hfind e Hin) as Hf. simpl in Hf.
      apply Z.eqb_neq in Hf. contradiction.
  - rewrite Hrun, find_key_none; [reflexivity|].
    intros e Hin. destruct (in_index _ _ Hin) as [j Hj]. now apply (Hnone j).
Qed.

Lemma entries_upto_sorted (n : nat) : strictly_sorted (entries_upto n).
Proof.
  intros i j a b Hij Hi Hj.
  destruct (index_some_range _ _ _ Hi) as [Hri _].
  destruct (index_some_range _ _ _ Hj) as [Hrj _].
  unfold GoSlice.len in *. rewrite Day3Facts.entries_upto_length in *.
  rewrite Day3Facts.entries_upto_index in Hi, Hj by lia.
  injection Hi as <-. injection Hj as <-. simpl. lia.
Qed.

Lemma binary_search_sorted_witness :
  binary_search 11 (entries_upto 1000) 1000 "stale"
  = match entry_of_key (entries_upto 1000) 1000 with
    | Some e => Returned (Value e)
    | None => Returned "stale"%string
    end.
Proof.
  apply (binary_search_sorted (entries_upto 1000) 1000 "stale" 10).
  - apply entries_upto_sorted.
  - unfold GoSlice.len. rewrite Day3Facts.entries_upto_length. simpl. lia.
  - lia.
Defined.

(** A key the slice does not have leaves the previous value in place. *)
Example missing_key_keeps_found :
  binary_search 11 (entries_upto 1000) 1000 "stale" = Returned "stale"%string.
Proof. vm_compute. reflexivity. Qed.

End SearchFacts.

(* ================================================================== *)
(** * Day 3: maps and slices with the same content *)

Module Day3BenchFacts.
Import Day3 Day3Bench.

(** The binding of key [i] in every container of the benchmarks. *)
Lemma put_new (m : GoMap.t) (k : Z) (v : string) :
  (forall kv, In kv m -> fst kv <> k) -> GoMap.put m k v = (m ++ [(k, v)])%list.
Proof.
  induction m as [|[k' v'] rest IH]; intros Hnew; [reflexivity|].
  simpl. destruct (Z.eqb_spec k' k) as [Heq|_].
  - exfalso. apply (Hnew (k', v')); [now left | exact Heq].
  - rewrite IH; [reflexivity|]. intros kv Hin. apply Hnew. now right.
Qed.

(** The insertion loop adds the keys in order. *)
Lemma iterate_put (n : nat) :
  forall a,
    GoSlice.iterate n (Z.of_nat a) (fun j m => Some (GoMap.put m j "value"))
      (map (fun i => (Z.of_nat i, "value"%string)) (seq 0 a))
    = Some (map (fun i => (Z.of_nat i, "value"%string)) (seq 0 (a + n))).
Proof.
  induction n as [|n IH]; intros a.
  - simpl. now rewrite Nat.add_0_r.
  - cbn [GoSlice.iterate]. rewrite put_new.
    + replace (Z.of_nat a + 1) with (Z.of_nat (S a)) by lia.
      replace (map (fun i => (Z.of_nat i, "value"%string)) (seq 0 a)
               ++ [(Z.of_nat a, "value"%string)])%list
        with (map (fun i => (Z.of_nat i, "value"%string)) (seq 0 (S a))).
      * rewrite IH. f_equal. f_equal. f_equal. lia.
      * rewrite seq_S, map_app. reflexivity.
    + intros kv Hin. apply in_map_iff in Hin. destruct Hin as [i [<- Hi]].
      apply in_seq in Hi. simpl. lia.
Qed.

Lemma get_filled (n : nat) :
  forall a k,
    GoMap.get (map (fun i => (Z.of_nat i, "value"%string)) (seq a n)) k
    = if (Z.of_nat a <=? k) && (k <? Z.of_nat (a + n)) then Some "value"%string else None.
Proof.
  induction n as [|n IH]; intros a k.
  - simpl. destruct (Z.leb_spec (Z.of_nat a) k); destruct (Z.ltb_spec k (Z.of_nat (a + 0)));
      try reflexivity; lia.
  - cbn [seq map GoMap.get]. rewrite IH.
    destruct (Z.eqb_spec (Z.of_nat a) k) as [<-|Hne].
    + destruct (Z.leb_spec (Z.of_nat a) (Z.of_nat a)); [|lia].
      destruct (Z.ltb_spec (Z.of_nat a) (Z.of_nat (a + S n))); [reflexivity|lia].
    + destruct (Z.leb_spec (Z.of_nat (S a)) k); destruct (Z.leb_spec (Z.of_nat a) k);
        destruct (Z.ltb_spec k (Z.of_nat (S a + n)));
        destruct (Z.ltb_spec k (Z.of_nat (a + S n))); try reflexivity; lia.
Qed.

Lemma insert_loop (size hint : Z) :
  GoSlice.for_upto size (fun j m => Some (GoMap.put m j "value")) (GoMap.make hint)
  = Some (map (fun i => (Z.of_nat i, "value"%string)) (seq 0 (Z.to_nat size))).
Proof.
  unfold GoSlice.for_upto, GoMap.make. exact (iterate_put (Z.to_nat size) 0).
Qed.

(** X14: [benchmarkMapInsert] and [benchmarkMapInsertPrealloc] build the
    same map, whatever the size hint: [len(m)] is the size (0 for a
    negative size), [m[k]] is "value" for every key from 0 to size-1 and
    the empty string for any other key.  For a size that is not negative
    [benchmarkSliceStructInsert] builds a slice with the same bindings
    in key order; for a negative size it panics where the map functions
    do not. *)
Theorem insertions_agree (size : Z) :
  exists m,
    benchmarkMapInsert size = Some (m, Z.max 0 size)
    /\ benchmarkMapInsertPrealloc size = Some (m, Z.max 0 size)
    /\ (forall k, GoMap.index m k
                  = if (0 <=? k) && (k <? size) then "value"%string else ""%string)
    /\ (0 <= size ->
        exists slice, benchmarkSliceStructInsert size = Some (slice, size)
                      /\ bindings slice = m)
    /\ (size < 0 -> benchmarkSliceStructInsert size = None).
Proof.
  exists (map (fun i => (Z.of_nat i, "value"%string)) (seq 0 (Z.to_nat size))).
  unfold benchmarkMapInsert, benchmarkMapInsertPrealloc, benchmarkSliceStructInsert.
  rewrite !insert_loop.
  assert (Hlen : GoMap.len (map (fun i => (Z.of_nat i, "value"%string))
                              (seq 0 (Z.to_nat size))) = Z.max 0 size).
  { unfold GoMap.len. rewrite length_map, length_seq. lia. }
  rewrite Hlen. split; [reflexivity|]. split; [reflexivity|].
  split; [|split].
  - intros k. unfold GoMap.index. rewrite get_filled. change (Z.of_nat 0) with 0.
    destruct (Z.leb_spec 0 k); destruct (Z.ltb_spec k (Z.of_nat (0 + Z.to_nat size)));
      destruct (Z.ltb_spec k size); try reflexivity; lia.
  - intros Hs. rewrite make_ok by lia. unfold GoSlice.for_upto.
    pose proof (MeasurementFacts.iterate_append_elements
                  (fun j => mkEntry j "value") (Z.to_nat size) 0 []) as H.
    simpl in H. simpl (repeat _ _). rewrite H.
    eexists. split.
    + f_equal. f_equal. unfold GoSlice.len. rewrite length_map, length_seq. lia.
    + unfold bindings. rewrite map_map. reflexivity.
  - intros Hs. now rewrite make_negative.
Qed.

Lemma insertions_agree_witness :
  exists m,
    benchmarkMapInsert 3 = Some (m, 3)
    /\ (exists slice, benchmarkSliceStructInsert 3 = Some (slice, 3)
                      /\ bindings slice = m)
    /\ benchmarkSliceStructInsert (-1) = None.
Proof.
  destruct (insertions_agree 3) as (m & Hm & _ & _ & Hslice & _).
  destruct (insertions_agree (-1)) as (_ & _ & _ & _ & _ & Hneg).
  exists m. split; [exact Hm|]. split; [apply Hslice; lia | apply Hneg; lia].
Defined.

(** X15: at every iteration [i >= 0] the three lookup benchmarks look for
    a key from 0 to 999 that their container holds: the map lookup, the
    direct index and the binary search (within 11 evaluations of its
    loop condition) all yield "value"; no lookup falls on a missing key
    and no index is out of range. *)
Theorem lookups_agree (i : Z) (found : string) :
  0 <= i ->
  exists m direct slice,
    lookup_map = Some m /\ direct_slice = Some direct /\ sorted_slice 1000 = Some slice
    /\ mapLookup m i = "value"%string
    /\ sliceLookupDirect direct i = Some "value"%string
    /\ lookup 11 slice i found = Returned "value"%string.
Proof.
  intros Hi.
  pose proof (Day3Facts.lookup_key_range i Hi) as Hkey.
  exists (map (fun i => (Z.of_nat i, "value"%string)) (seq 0 1000)),
         (map (fun i => "value"%string) (seq 0 1000)),
         (entries_upto 1000).
  split; [exact (insert_loop 1000 1000)|].
  split.
  { unfold direct_slice. rewrite make_ok by lia. unfold GoSlice.for_upto.
    exact (Day3Facts.iterate_fill (fun _ => "value"%string) 1000 []
             (repeat ""%string 1000) (repeat_length _ _)). }
  split; [apply (Day3Facts.sorted_slice_entries 1000); lia|].
  split; [|split].
  - unfold mapLookup, GoMap.index. rewrite get_filled. change (Z.of_nat 0) with 0.
    change (Z.of_nat (0 + 1000)) with 1000.
    destruct (Z.leb_spec 0 (GoInt.rem i 1000)); [|lia].
    destruct (Z.ltb_spec (GoInt.rem i 1000) 1000); [reflexivity|lia].
  - unfold sliceLookupDirect.
    apply (Day1More.index_built (fun _ => "value"%string) 1000). lia.
  - unfold lookup, binary_search.
    assert (Hl : GoSlice.len (entries_upto 1000) = 1000).
    { unfold GoSlice.len. now rewrite Day3Facts.entries_upto_length. }
    rewrite Hl. change (GoInt.sub 1000 1) with 999.
    destruct (SearchFacts.search_loop_sorted (entries_upto 1000) (GoInt.rem i 1000) found
                (SearchFacts.entries_upto_sorted 1000)) with (fuel := 10%nat) (low := 0) (high := 999)
      as [(j & e & Hj & _ & Hrun)|[Hnone _]].
    + rewrite Hl. pose proof GrowthBounds.two_62. lia.
    + lia.
    + rewrite Hl. lia.
    + simpl. lia.
    + intros j e Hj Hk. destruct (SearchFacts.index_some_range _ _ _ Hj) as [Hr _].
      rewrite Hl in Hr. lia.
    + rewrite Hrun. destruct (SearchFacts.index_some_range _ _ _ Hj) as [Hr _].
      rewrite Hl in Hr. rewrite Day3Facts.entries_upto_index in Hj by lia.
      now injection Hj as <-.
    + exfalso.
      apply (Hnone (GoInt.rem i 1000) (mkEntry (GoInt.rem i 1000) "value")); [|reflexivity].
      apply Day3Facts.entries_upto_index. lia.
Qed.

Lemma lookups_agree_witness :
  exists m direct slice,
    lookup_map = Some m /\ direct_slice = Some direct /\ sorted_slice 1000 = Some slice
    /\ mapLookup m 20637 = "value"%string
    /\ sliceLookupDirect direct 20637 = Some "value"%string
    /\ lookup 11 slice 20637 "" = Returned "value"%string.
Proof.
  apply (lookups_agree 20637 ""). lia.
Defined.

Lemma wrap_add_wrap (a b : Z) : GoInt.wrap (GoInt.wrap a + b) = GoInt.wrap (a + b).
Proof.
  unfold GoInt.wrap.
  replace ((a + 2 ^ 63) mod 2 ^ 64 - 2 ^ 63 + b + 2 ^ 63)
    with ((a + 2 ^ 63) mod 2 ^ 64 + b) by lia.
  rewrite Zplus_mod_idemp_l. f_equal. f_equal. lia.
Qed.

(** A loop of wrapping additions leaves the wrapped sum. *)
Lemma fold_add {A : Type} (f : A -> Z) (l : list A) :
  forall t,
    fold_left (fun t x => GoInt.add t (f x)) l (GoInt.wrap t)
    = GoInt.wrap (t + fold_right Z.add 0 (map f l)).
Proof.
  induction l as [|x l IH]; intros t.
  - simpl. now rewrite Z.add_0_r.
  - cbn [fold_left map fold_right]. unfold GoInt.add at 2.
    rewrite wrap_add_wrap, IH. f_equal. lia.
Qed.

Lemma sum_permutation (l l' : list Z) :
  Permutation l l' -> fold_right Z.add 0 l = fold_right Z.add 0 l'.
Proof.
  induction 1; simpl; lia.
Qed.

(** [n] rounds that each add [total] leave [n * total], wrapped. *)
Lemma rounds (round : Z -> Z -> Z) (total n : Z) :
  0 <= n ->
  (forall i t, 0 <= i < n -> round i (GoInt.wrap t) = GoInt.wrap (t + total)) ->
  GoSlice.for_upto n (fun i t => Some (round i t)) 0 = Some (GoInt.wrap (n * total)).
Proof.
  intros Hn Hround. unfold GoSlice.for_upto.
  destruct (iterate_invariant (fun j t => t = GoInt.wrap (j * total))
              (fun i t => Some (round i t)) (Z.to_nat n) 0 0)
    as [t [Hrun Ht]].
  - reflexivity.
  - intros j t Hj ->. eexists. split; [reflexivity|].
    rewrite Hround by lia. f_equal. lia.
  - rewrite Hrun, Ht. replace (0 + Z.of_nat (Z.to_nat n)) with n by lia. reflexivity.
Qed.

(** X16: [Benchmark_MapIteration] and [Benchmark_SliceIteration] leave the
    same total in [globalInt] after [n] rounds, [n * 499500] reduced to
    64 bits, in whatever order each round visits the map. *)
Theorem iteration_totals_agree (orders : Z -> list (Z * string)) (n : Z) :
  0 <= n ->
  exists m slice,
    lookup_map = Some m /\ sorted_slice 1000 = Some slice
    /\ ((forall i, GoMap.range_order m (orders i)) ->
        Benchmark_MapIteration orders n = Some (GoInt.wrap (n * 499500)))
    /\ Benchmark_SliceIteration slice n = Some (GoInt.wrap (n * 499500)).
Proof.
  intros Hn.
  exists (map (fun i => (Z.of_nat i, "value"%string)) (seq 0 1000)), (entries_upto 1000).
  split; [exact (insert_loop 1000 1000)|].
  split; [apply (Day3Facts.sorted_slice_entries 1000); lia|].
  split.
  - intros Horders. unfold Benchmark_MapIteration. apply rounds; [exact Hn|].
    intros i t _. unfold sum_map. rewrite (fold_add fst).
    rewrite (sum_permutation _ _ (Permutation_map fst (Horders i))).
    replace (fold_right Z.add 0
               (map fst (map (fun i => (Z.of_nat i, "value"%string)) (seq 0 1000))))
      with 499500 by (vm_compute; reflexivity).
    reflexivity.
  - unfold Benchmark_SliceIteration.
    apply (rounds (fun _ => sum_slice (entries_upto 1000))); [exact Hn|].
    intros i t _. unfold sum_slice. rewrite (fold_add Key).
    replace (fold_right Z.add 0 (map Key (entries_upto 1000))) with 499500
      by (vm_compute; reflexivity).
    reflexivity.
Qed.

Lemma iteration_totals_agree_witness :
  exists m slice,
    lookup_map = Some m /\ sorted_slice 1000 = Some slice
    /\ Benchmark_MapIteration (fun i => if Z.even i then m else rev m) 3
       = Some (GoInt.wrap (3 * 499500))
    /\ Benchmark_SliceIteration slice 3 = Some (GoInt.wrap (3 * 499500)).
Proof.
  destruct (iteration_totals_agree (fun _ => []) 3 ltac:(lia))
    as (m & slice & Hm & Hs & _ & Hslice).
  exists m, slice. split; [exact Hm|]. split; [exact Hs|]. split; [|exact Hslice].
  destruct (iteration_totals_agree (fun i => if Z.even i then m else rev m) 3 ltac:(lia))
    as (m' & _ & Hm' & _ & Hmap & _).
  assert (m' = m) by congruence. subst m'.
  apply Hmap. intros i. unfold GoMap.range_order.
  destruct (Z.even i); [apply Permutation_refl | apply Permutation_sym, Permutation_rev].
Defined.

End Day3BenchFacts.

(* ================================================================== *)
(** * What holds of every result of [calculateGrowth] *)

Module GrowthOrder.
Import Day2.

(** The loop is left only with a capacity that covers the target. *)
Lemma growth_loop_covers (fuel : nat) :
  forall target cap r x,
    growth_loop fuel target cap r = Some x -> target <= fst x.
Proof.
  induction fuel as [|fuel IH]; intros target cap r x Hrun; [discriminate|].
  simpl in Hrun. destruct (Z.ltb_spec cap target).
  - eapply IH. exact Hrun.
  - injection Hrun as <-. simpl. lia.
Qed.

Lemma growth_loop_monotone (fuel : nat) :
  forall target target' cap r x x',
    target <= target' ->
    growth_loop fuel target cap r = Some x ->
    growth_loop fuel target' cap r = Some x' ->
    fst x <= fst x'.
Proof.
  induction fuel as [|fuel IH]; intros target target' cap r x x' Hle Hrun Hrun';
    [discriminate|].
  simpl in Hrun, Hrun'.
  destruct (Z.ltb_spec cap target) as [Hlt|Hge].
  - destruct (Z.ltb_spec cap target'); [|lia].
    eapply IH; eassumption.
  - injection Hrun as <-. simpl.
    destruct (Z.ltb_spec cap target').
    + apply growth_loop_covers in Hrun'. lia.
    + injection Hrun' as <-. simpl. lia.
Qed.

(** X17: whenever [calculateGrowth] returns, the capacity it returns
    covers the target, and a larger target never gets a smaller
    capacity.  This holds for every pair of targets, also past the
    overflow. *)
Theorem calculateGrowth_monotone (target target' : Z) (g g' : Growth) :
  target <= target' ->
  calculateGrowth_returns target g ->
  calculateGrowth_returns target' g' ->
  target <= finalCap g /\ finalCap g <= finalCap g'.
Proof.
  intros Hle [f Hg] [f' Hg'].
  apply (Day2Facts.calculateGrowth_fuel_mono _ (Nat.max f f')) in Hg; [|lia].
  apply (Day2Facts.calculateGrowth_fuel_mono _ (Nat.max f f')) in Hg'; [|lia].
  unfold calculateGrowth in Hg, Hg'.
  destruct (growth_loop (Nat.max f f') target 0 0) as [[c k]|] eqn:E; [|discriminate].
  destruct (growth_loop (Nat.max f f') target' 0 0) as [[c' k']|] eqn:E'; [|discriminate].
  injection Hg as <-. injection Hg' as <-. cbn [finalCap].
  split.
  - apply growth_loop_covers in E. exact E.
  - exact (growth_loop_monotone _ _ _ _ _ _ _ Hle E E').
Qed.

Lemma calculateGrowth_monotone_witness :
  1000 <= finalCap (mkGrowth 1024 10 24)
  /\ finalCap (mkGrowth 1024 10 24) <= finalCap (mkGrowth 1280 11 255).
Proof.
  apply (calculateGrowth_monotone 1000 1025).
  - lia.
  - exists 12%nat. reflexivity.
  - exists 13%nat. reflexivity.
Defined.

End GrowthOrder.

(* ================================================================== *)
(** * Day 3: the cost projection, figure by figure *)

Module MapCostFacts.
Import Day3.

(** Every figure of [calculateMapCostImpact] is computed without
    rounding: the map takes 50,000,000 bytes and the slice 16,000,000
    bytes over 2^30, the costs are 3.75 times that, the monthly saving
    is their difference, the annual saving is exactly twelve times the
    monthly saving, and the printed ratio of map to slice memory is
    exactly 3.125. *)
Theorem map_cost_figures_exact :
  let c := calculateMapCostImpact in
  GoFloat.exactly (mapMemoryGB c) (50000000 # 1073741824)
  /\ GoFloat.exactly (sliceMemoryGB c) (16000000 # 1073741824)
  /\ GoFloat.exactly (sliceCost c) ((16000000 # 1073741824) * (375 # 100))
  /\ GoFloat.exactly (savingsGB c) (34000000 # 1073741824)
  /\ GoFloat.exactly (savingsCost c) ((34000000 # 1073741824) * (375 # 100))
  /\ GoFloat.exactly (annualSavings c) ((12 # 1) * ((34000000 # 1073741824) * (375 # 100)))
  /\ GoFloat.exactly (mapMemoryGB c / sliceMemoryGB c)%float (3125 # 1000).
Proof.
  cbv zeta.
  repeat split; eapply Day3Facts.exactly_intro; try (vm_compute; reflexivity).
Qed.

End MapCostFacts.
